(** * bs83bdis: a Holtek BS83B08A-3 disassembler, embedded and verified

    Shallow embedding of [src/bs83bdis.py].  Python integers are [Z],
    bit operations are [Z.land] and [Z.shiftr], Python strings are
    [string], [None] is [option], dictionaries are [gmap], the memory
    map list is a [list] read with [!!], and raising an exception is
    the [Raise] constructor of [result]. *)

From Stdlib Require Import ZArith NArith String Ascii List Lia Bool.
From stdpp Require Import base option list gmap.

Import ListNotations.
Local Open Scope Z_scope.
Set Warnings "-clear-no-such-hyp".

(** ** Exceptions *)

Inductive exn : Type :=
| Exception (msg : string)     (* raise Exception('...') *)
| KeyError (key : option Z)    (* a missing dictionary key *)
| TypeError.                   (* an operation applied to None *)

Inductive result (A : Type) : Type :=
| Ok (a : A)
| Raise (e : exn).
Arguments Ok {A} a.
Arguments Raise {A} e.

Definition bind {A B} (r : result A) (k : A -> result B) : result B :=
  match r with
  | Ok a => k a
  | Raise e => Raise e
  end.

Notation "'let*' x ':=' r 'in' k" := (bind r (fun x => k))
  (at level 10, x name, r at level 100, k at level 200).

Definition raises {A} (r : result A) : Prop := exists e, r = Raise e.
Definition returns {A} (r : result A) : Prop := exists a, r = Ok a.

(** ** Python string helpers *)

Module Py.

Local Open Scope string_scope.

Definition nl : string := String (ascii_of_nat 10) EmptyString.
Definition tab : string := String (ascii_of_nat 9) EmptyString.

(** The characters [str.strip()] removes, within ASCII. *)
Definition is_space (c : ascii) : bool :=
  let n := nat_of_ascii c in
  ((9 <=? n)%nat && (n <=? 13)%nat) || ((28 <=? n)%nat && (n <=? 32)%nat).

Fixpoint lstrip (s : string) : string :=
  match s with
  | String c r => if is_space c then lstrip r else s
  | EmptyString => EmptyString
  end.

Fixpoint rev_string (s acc : string) : string :=
  match s with
  | String c r => rev_string r (String c acc)
  | EmptyString => acc
  end.

Definition strip (s : string) : string :=
  rev_string (lstrip (rev_string (lstrip s) "")) "".

(** Truth value of a string-or-None object. *)
Definition truthy (o : option string) : bool :=
  match o with
  | Some (String _ _) => true
  | _ => false
  end.

Definition digit_char (d : Z) : ascii :=
  nth (Z.to_nat d) (list_ascii_of_string "0123456789ABCDEF") "0"%char.

Fixpoint digits_fuel (fuel : nat) (base n : Z) (acc : string) : string :=
  match fuel with
  | O => acc
  | S f =>
      let acc' := String (digit_char (n mod base)) acc in
      if (n / base =? 0)%Z then acc' else digits_fuel f base (n / base) acc'
  end.

(** The digits of a non-negative integer, most significant first. *)
Definition digits (base n : Z) : string :=
  digits_fuel (S (Z.to_nat (Z.log2 n))) base n "".

Fixpoint zeros (k : nat) : string :=
  match k with
  | O => ""
  | S k' => String "0"%char (zeros k')
  end.

(** ['%0<width>X' % n] and ['%d' % n]: the sign counts in the width. *)
Definition fmt_0X (width : nat) (n : Z) : string :=
  let sign := if (n <? 0)%Z then "-" else "" in
  let body := digits 16 (Z.abs n) in
  sign ++ zeros (width - String.length sign - String.length body) ++ body.

Definition fmt_d (n : Z) : string :=
  (if (n <? 0)%Z then "-" else "") ++ digits 10 (Z.abs n).

(** [bin(n)] and [s[2:]] and [s.zfill(width)]. *)
Definition bin (n : Z) : string :=
  (if (n <? 0)%Z then "-" else "") ++ "0b" ++ digits 2 (Z.abs n).

Definition drop2 (s : string) : string :=
  match s with
  | String _ (String _ r) => r
  | _ => ""
  end.

Definition zfill (width : nat) (s : string) : string :=
  let pad := zeros (width - String.length s) in
  match s with
  | String c r =>
      if (Ascii.eqb c "+" || Ascii.eqb c "-")%bool
      then String c (pad ++ r) else pad ++ s
  | EmptyString => pad
  end.

(** ['%s' % o] for a string-or-None object. *)
Definition fmt_s (o : option string) : string :=
  match o with
  | Some s => s
  | None => "None"
  end.

End Py.

(** ** Module-level constants and the Format enumeration *)

Definition CODE_ADDRESS_START : Z := 0x0000.
Definition CODE_ADDRESS_END : Z := 0x07FF.
Definition CODE_FILE_MAX_SIZE : Z := 0x1000.

Inductive Format : Type :=
| SPECIAL | M2A | A2M | LITERAL | ADDRESS | BIT | MEMORY | INVALID.

#[global] Instance Format_eq_dec : EqDecision Format.
Proof. solve_decision. Defined.

Definition Format_members : list Format :=
  [SPECIAL; M2A; A2M; LITERAL; ADDRESS; BIT; MEMORY; INVALID].

(** ** class Instruction *)

Module Instruction.

Record t : Type := mk {
  address : Z;
  word : Z;
  first : option Z;
  second : option Z;
  type : Format;
  name : option string
}.

Definition get_data_address (word : Z) : Z :=
  Z.land word 0x7F + (if Z.land word (Z.shiftl 1 14) =? 0 then 0 else 0x80).

Definition get_bit (word : Z) : Z :=
  Z.land (Z.shiftr word 7) 7.

(** [Instruction.__init__]: the address range check, the operands by
    format, the stripped name, and the missing-name check.  The final
    [else: raise] of the format dispatch has no case here: [Format] is
    closed. *)
Definition init (address : Z) (opcode_name : option string)
    (opcode_type : Format) (word : Z) : result t :=
  if (address <? CODE_ADDRESS_START) || (address >? CODE_ADDRESS_END) then
    Raise (Exception ("Address 0x" ++ Py.fmt_0X 4 address ++ " out of range"))
  else
    let '(first, second) :=
      match opcode_type with
      | SPECIAL => (None, None)
      | M2A => (Some (get_data_address word), None)
      | A2M => (Some (get_data_address word), None)
      | LITERAL => (Some (Z.land word 0xFF), None)
      | ADDRESS => (Some (Z.land word 0x7FF), None)
      | BIT => (Some (get_data_address word), Some (get_bit word))
      | MEMORY => (Some (get_data_address word), None)
      | INVALID => (None, None)
      end in
    let name :=
      if Py.truthy opcode_name then Py.strip <$> opcode_name else None in
    if bool_decide (opcode_type <> INVALID) && negb (Py.truthy name) then
      Raise (Exception "Invalid or missing opcode name")
    else
      Ok (mk address word first second opcode_type name).

End Instruction.

(** ** class Disassembler: the tables *)

Module Disassembler.

Local Open Scope string_scope.

(** [_MEMORY_MAP], entry by entry in source order; [None] is an unnamed
    location. *)
Definition _MEMORY_MAP : list (option string) := [
  (* 00H *)
  Some "IAR0"; Some "MP0"; Some "IAR1"; Some "MP1"; Some "BP"; Some "ACC";
  Some "PCL"; Some "TBLP"; Some "TBLH";
  Some "TBHP"; Some "STATUS"; Some "SMOD"; Some "CTRL"; Some "INTEG";
  Some "INTC0"; Some "INTC1";
  (* 10H *)
  None; None; None; Some "LVRC"; Some "PA"; Some "PAC"; Some "PAPU";
  Some "PAWU"; None; None;
  Some "WDTC"; Some "TBC"; Some "TMR"; Some "TMRC"; Some "EEA"; Some "EED";
  Some "PB";
  (* 20H *)
  Some "PBC"; Some "PBPU";
  Some "I2CTOC"; Some "SIMC0"; Some "SIMC1"; Some "SIMD"; Some "SIMC2";
  None; None; None; None;
  None; None; None; None; None;
  (* 30H *)
  None; None; None; None; None; None; None; None; None; None; None; None;
  None; None; None; None;
  (* 40H *)
  None; None; None; Some "TKTMR"; Some "TKC0"; Some "TK16DL"; Some "TK16DH";
  Some "TKC1";
  Some "TKM016DL"; Some "TKM016DH"; Some "TKM0ROL"; Some "TKM0ROH";
  Some "TKM0C0"; Some "TKM0C1";
  Some "TKM116DL"; Some "TKM116DH";
  (* 50H *)
  Some "TKM1ROL"; Some "TKM1ROH"; Some "TKM1C0"; Some "TKM1C1";
  None; None; None; None;
  None; None; None; None; None; None; None; None
].

(** The opcode tables.  The source writes the masks and keys in binary;
    they are the same numbers in hexadecimal here. *)
Definition _SPECIAL_MASK : Z := 0xFFF8.
Definition _SPECIAL_MARK : Z := 0x0000.
Definition _SPECIAL_LIST : Z := 0x0007.
Definition _SPECIAL_OPCODES : gmap Z string := list_to_map [
  (0x0000, "NOP");
  (0x0001, "CLR WDT1");
  (0x0002, "HALT");
  (0x0003, "RET");
  (0x0004, "RETI");
  (0x0005, "CLR WDT2")
].

Definition _BIT_MASK : Z := 0xB000.
Definition _BIT_MARK : Z := 0x3000.
Definition _BIT_LIST : Z := 0x3C00.
Definition _BIT_OPCODES : gmap Z string := list_to_map [
  (0x3000, "SET");
  (0x3400, "CLR");
  (0x3800, "SNZ");
  (0x3C00, "SZ")
].

Definition _ADDRESS_MASK : Z := 0xF000.
Definition _ADDRESS_MARK : Z := 0x2000.
Definition _ADDRESS_LIST : Z := 0xF800.
Definition _ADDRESS_OPCODES : gmap Z string := list_to_map [
  (0x2000, "CALL");
  (0x2800, "JMP")
].

Definition _LITERAL_MASK : Z := 0x8800.
Definition _LITERAL_MARK : Z := 0x0800.
Definition _LITERAL_LIST : Z := 0x0F00.
Definition _LITERAL_OPCODES : gmap Z string := list_to_map [
  (0x0900, "RET");
  (0x0A00, "SUB");
  (0x0B00, "ADD");
  (0x0C00, "XOR");
  (0x0D00, "OR");
  (0x0E00, "AND");
  (0x0F00, "MOV")
].

Definition _M2A_MASK : Z := 0x9F80.
Definition _M2A_MARK : Z := 0x0080.
Definition _M2A_LIST : Z := 0x1F80.
Definition _M2A_OPCODES : gmap Z string := list_to_map [
  (0x0080, "MOV")
].

Definition _OTHER_OPCODES_MASK : Z := 0x9F80.
Definition _OTHER_OPCODES : gmap Z (Format * string) := list_to_map [
  (0x0080, (M2A, "MOV"));
  (0x0100, (MEMORY, "CPLA"));
  (0x0180, (MEMORY, "CPL"));
  (0x0200, (A2M, "SUB"));
  (0x0280, (A2M, "SUBM"));
  (0x0300, (A2M, "ADD"));
  (0x0380, (A2M, "ADDM"));
  (0x0400, (A2M, "XOR"));
  (0x0480, (A2M, "XORM"));
  (0x0500, (A2M, "OR"));
  (0x0580, (A2M, "ORM"));
  (0x0600, (A2M, "AND"));
  (0x0680, (A2M, "ANDM"));
  (0x0700, (A2M, "MOV"));
  (0x1000, (MEMORY, "SZA"));
  (0x1080, (MEMORY, "SZ"));
  (0x1100, (MEMORY, "SWAPA"));
  (0x1180, (MEMORY, "SWAP"));
  (0x1200, (A2M, "SBC"));
  (0x1280, (A2M, "SBCM"));
  (0x1300, (A2M, "ADC"));
  (0x1380, (A2M, "ADCM"));
  (0x1400, (MEMORY, "INCA"));
  (0x1480, (MEMORY, "INC"));
  (0x1500, (MEMORY, "DECA"));
  (0x1580, (MEMORY, "DEC"));
  (0x1600, (MEMORY, "SIZA"));
  (0x1680, (MEMORY, "SIZ"));
  (0x1700, (MEMORY, "SDZA"));
  (0x1780, (MEMORY, "SDZ"));
  (0x1800, (MEMORY, "RLA"));
  (0x1880, (MEMORY, "RL"));
  (0x1900, (MEMORY, "RRA"));
  (0x1980, (MEMORY, "RR"));
  (0x1A00, (MEMORY, "RLCA"));
  (0x1A80, (MEMORY, "RLC"));
  (0x1B00, (MEMORY, "RRCA"));
  (0x1B80, (MEMORY, "RRC"));
  (0x1D00, (MEMORY, "TABRDC"));
  (0x1D80, (MEMORY, "TABRDL"));
  (0x1E80, (MEMORY, "DAA"));
  (0x1F00, (MEMORY, "CLR"));
  (0x1F80, (MEMORY, "SET"))
].

(** ** The decoder *)

(** One group of [_decode_word] that tests [word & mask == mark] and then
    looks [word & list] up in its table, taking the entry when
    [if opcode_name:] holds. *)
Definition masked_lookup (mask mark lst : Z) (table : gmap Z string)
    (word : Z) : option string :=
  if (Z.land word mask =? mark)%Z then
    let opcode_name := table !! Z.land word lst in
    if Py.truthy opcode_name then opcode_name else None
  else None.

(** The fourth group has no mask/mark test: it looks [word & mask] up
    directly.  A found pair has neither component [None]. *)
Definition other_lookup (word : Z) : option (Format * string) :=
  _OTHER_OPCODES !! Z.land word _OTHER_OPCODES_MASK.

(** [_decode_word(self, address, word)].  The caller binds
    [(word, address)] to [enumerate]'s (index, value) pairs and passes
    them as [(word, address)], so the parameter [address] receives the
    index and the parameter [word] the value read from the file. *)
Definition _decode_word (address word : Z) : result Instruction.t :=
  match masked_lookup _SPECIAL_MASK _SPECIAL_MARK _SPECIAL_LIST
                      _SPECIAL_OPCODES word with
  | Some opcode_name => Instruction.init address (Some opcode_name) SPECIAL word
  | None =>
  match masked_lookup _BIT_MASK _BIT_MARK _BIT_LIST _BIT_OPCODES word with
  | Some opcode_name => Instruction.init address (Some opcode_name) BIT word
  | None =>
  match masked_lookup _ADDRESS_MASK _ADDRESS_MARK _ADDRESS_LIST
                      _ADDRESS_OPCODES word with
  | Some opcode_name => Instruction.init address (Some opcode_name) ADDRESS word
  | None =>
  match other_lookup word with
  | Some (opcode_type, opcode_name) =>
      Instruction.init address (Some opcode_name) opcode_type word
  | None =>
  match masked_lookup _LITERAL_MASK _LITERAL_MARK _LITERAL_LIST
                      _LITERAL_OPCODES word with
  | Some opcode_name => Instruction.init address (Some opcode_name) LITERAL word
  | None =>
  match masked_lookup _M2A_MASK _M2A_MARK _M2A_LIST _M2A_OPCODES word with
  | Some opcode_name => Instruction.init address (Some opcode_name) M2A word
  | None => Instruction.init address None INVALID word
  end end end end end end.

(** ** The disassembler object *)

(** The attributes [__init__] sets.  A label key is whatever
    [instruction.first] holds, so the dictionary is keyed by [option Z]
    ([None] is a legal Python key). *)
Record t : Type := mk {
  _words : list Z;
  _code_address : Z;
  _instructions : list Instruction.t;
  _labels : gmap (option Z) string;
  _has_labels : bool
}.

(** The file system seen by [_load_binary_file]: a path is a regular
    file with its bytes, or it is not a file. *)
Definition filesystem : Type := string -> option (list Byte.byte).

Definition byte_val (b : Byte.byte) : Z := Z.of_N (Byte.to_N b).

(** [struct.unpack('<%dH' % n, source_bytes)]: little-endian unsigned
    16-bit words, in order. *)
Fixpoint unpack_le16 (bs : list Byte.byte) : list Z :=
  match bs with
  | b0 :: b1 :: r => (byte_val b0 + 256 * byte_val b1)%Z :: unpack_le16 r
  | _ => []
  end.

Definition _load_binary_file (fs : filesystem) (path : string)
    : result (list Z) :=
  match fs path with
  | None => Raise (Exception (path ++ " is not a file"))
  | Some content =>
      let st_size := Z.of_nat (length content) in
      if (st_size =? 0)%Z then
        Raise (Exception (path ++ " does not contain any code"))
      else if (st_size mod 2 =? 1)%Z then
        Raise (Exception (path ++ " is not word-aligned"))
      else if (st_size >? CODE_FILE_MAX_SIZE)%Z then
        Raise (Exception (path ++ " is too big to fit in the MCU memory"))
      else
        let source_bytes := take (Z.to_nat st_size) content in
        if negb (Z.of_nat (length source_bytes) =? st_size)%Z then
          Raise (Exception ("I/O error when reading " ++ path))
        else Ok (unpack_le16 source_bytes)
  end.

(** One iteration of the loop of [_assign_labels] over the pair
    (labels, counter). *)
Definition assign_step (st : gmap (option Z) string * Z)
    (instruction : Instruction.t) : gmap (option Z) string * Z :=
  let '(labels, counter) := st in
  if decide (Instruction.type instruction = ADDRESS) then
    match labels !! Instruction.first instruction with
    | Some _ => st
    | None =>
        (<[Instruction.first instruction := "label" ++ Py.fmt_0X 4 counter]>
           labels,
         (counter + 1)%Z)
    end
  else st.

(** [_assign_labels]: the counter starts at 0, the dictionary is the
    object's own [_labels], updated in place. *)
Definition assign_labels_from (labels : gmap (option Z) string)
    (instructions : list Instruction.t) : gmap (option Z) string :=
  fst (foldl assign_step (labels, 0%Z) instructions).

Definition _assign_labels (self : t) : t :=
  mk (_words self) (_code_address self) (_instructions self)
     (assign_labels_from (_labels self) (_instructions self))
     (_has_labels self).

(** [[f(i, x) for (i, x) in enumerate(l)]] with exceptions. *)
Fixpoint map_enumerate {A B} (f : Z -> A -> result B) (i : Z) (l : list A)
    : result (list B) :=
  match l with
  | [] => Ok []
  | x :: r =>
      let* y := f i x in
      let* ys := map_enumerate f (i + 1)%Z r in
      Ok (y :: ys)
  end.

(** [Disassembler.__init__]. *)
Definition init (fs : filesystem) (input_path : string) (labels : bool)
    : result t :=
  let* words := _load_binary_file fs input_path in
  let* instructions := map_enumerate _decode_word 0%Z words in
  let self := mk words 0%Z instructions ∅ labels in
  if labels then Ok (_assign_labels self) else Ok self.

(** ** The formatter *)

Definition _lookup_memory_location (location : Z) : result string :=
  if (location <? 0)%Z then
    Raise (Exception ("Invalid memory location " ++ Py.fmt_d location))
  else
    let result :=
      if (location <? Z.of_nat (length _MEMORY_MAP))%Z
      then mjoin (_MEMORY_MAP !! Z.to_nat location)
      else None in
    if negb (Py.truthy result)
    then Ok ("[0" ++ Py.fmt_0X 2 location ++ "h]")
    else Ok (Py.fmt_s result).

(** An operand attribute used as a number: [None] is a type error. *)
Definition operand (o : option Z) : result Z :=
  match o with
  | Some z => Ok z
  | None => Raise TypeError
  end.

Definition _format_instruction (self : t) (address : Z)
    (instruction : Instruction.t) : result string :=
  let name := Instruction.name instruction in
  let head :=
    match _labels self !! Some address with
    | Some l => Py.nl ++ l ++ ":" ++ Py.nl ++ Py.nl
    | None => ""
    end
    ++ Py.fmt_0X 4 address ++ Py.tab
    ++ Py.fmt_0X 4 (Instruction.word instruction) ++ Py.tab in
  let* body :=
    match Instruction.type instruction with
    | SPECIAL =>
        match name with
        | Some n => Ok n
        | None => Raise TypeError
        end
    | M2A =>
        let* loc := operand (Instruction.first instruction) in
        let* target := _lookup_memory_location loc in
        Ok (Py.fmt_s name ++ Py.tab ++ target ++ ", A")
    | A2M =>
        let* loc := operand (Instruction.first instruction) in
        let* target := _lookup_memory_location loc in
        Ok (Py.fmt_s name ++ Py.tab ++ "A, " ++ target)
    | LITERAL =>
        let* v := operand (Instruction.first instruction) in
        Ok (Py.fmt_s name ++ Py.tab ++ "A, 0" ++ Py.fmt_0X 2 v ++ "h")
    | ADDRESS =>
        let* target :=
          if _has_labels self then
            match _labels self !! Instruction.first instruction with
            | Some l => Ok l
            | None => Raise (KeyError (Instruction.first instruction))
            end
          else
            let* v := operand (Instruction.first instruction) in
            Ok ("0" ++ Py.fmt_0X 4 v ++ "h") in
        Ok (Py.fmt_s name ++ Py.tab ++ target)
    | BIT =>
        let* loc := operand (Instruction.first instruction) in
        let* target := _lookup_memory_location loc in
        let* b := operand (Instruction.second instruction) in
        Ok (Py.fmt_s name ++ Py.tab ++ target ++ "." ++ Py.fmt_d b)
    | MEMORY =>
        let* loc := operand (Instruction.first instruction) in
        let* target := _lookup_memory_location loc in
        Ok (Py.fmt_s name ++ Py.tab ++ target)
    | INVALID =>
        Ok ("; (" ++ Py.zfill 16 (Py.drop2 (Py.bin (Instruction.word instruction)))
              ++ ") Invalid opcode")
    end in
  Ok (head ++ body ++ Py.nl).

(** [generate_output]: the lines of all instructions, concatenated. *)
Definition generate_output (self : t) : result string :=
  let* lines :=
    map_enumerate (_format_instruction self) 0%Z (_instructions self) in
  Ok (fold_right String.append "" lines).

End Disassembler.

(** ** Definitions used to state the properties *)

Module Spec.

Import Disassembler.
Local Open Scope string_scope.

(** The operands [Instruction.__init__] stores for a format. *)
Definition operands (f : Format) (w : Z) : option Z * option Z :=
  match f with
  | SPECIAL | INVALID => (None, None)
  | M2A | A2M | MEMORY => (Some (Instruction.get_data_address w), None)
  | LITERAL => (Some (Z.land w 0xFF), None)
  | ADDRESS => (Some (Z.land w 0x7FF), None)
  | BIT => (Some (Instruction.get_data_address w), Some (Instruction.get_bit w))
  end.

(** The six pattern groups as the specification lists them, in its
    order: Special, Bit, Address, Other, Literal, M2A fallback.  A group
    matches a word when its mask/mark test passes and its sub-table
    lookup succeeds; it then gives a format and a mnemonic. *)
Definition group : Type := Z -> option (Format * string).

Definition special_group : group := fun w =>
  pair SPECIAL <$> masked_lookup _SPECIAL_MASK _SPECIAL_MARK _SPECIAL_LIST
                                 _SPECIAL_OPCODES w.
Definition bit_group : group := fun w =>
  pair BIT <$> masked_lookup _BIT_MASK _BIT_MARK _BIT_LIST _BIT_OPCODES w.
Definition address_group : group := fun w =>
  pair ADDRESS <$> masked_lookup _ADDRESS_MASK _ADDRESS_MARK _ADDRESS_LIST
                                 _ADDRESS_OPCODES w.
Definition other_group : group := other_lookup.
Definition literal_group : group := fun w =>
  pair LITERAL <$> masked_lookup _LITERAL_MASK _LITERAL_MARK _LITERAL_LIST
                                 _LITERAL_OPCODES w.
Definition m2a_group : group := fun w =>
  pair M2A <$> masked_lookup _M2A_MASK _M2A_MARK _M2A_LIST _M2A_OPCODES w.

Definition pattern_groups : list group :=
  [special_group; bit_group; address_group; other_group; literal_group;
   m2a_group].

(** The first group of a list that matches, if any. *)
Fixpoint first_match (gs : list group) (w : Z) : option (Format * string) :=
  match gs with
  | [] => None
  | g :: r =>
      match g w with
      | Some d => Some d
      | None => first_match r w
      end
  end.

(** The instruction a matching group decodes a word to, and the one an
    unmatched word decodes to. *)
Definition decoding (a w : Z) (d : option (Format * string))
    : result Instruction.t :=
  match d with
  | Some (f, n) => Instruction.init a (Some n) f w
  | None => Instruction.init a None INVALID w
  end.

(** Ordered priority matching over a list of groups, following the
    specification's words. *)
Definition decode_with (gs : list group) (a w : Z) : result Instruction.t :=
  decoding a w (first_match gs w).

(** The groups without the M2A fallback (step 6 removed). *)
Definition pattern_groups_no_fallback : list group :=
  [special_group; bit_group; address_group; other_group; literal_group].

(** The targets of the Address-format instructions of a sequence, in
    order. *)
Definition targets (instructions : list Instruction.t) : list (option Z) :=
  Instruction.first <$>
    filter (fun i => Instruction.type i = ADDRESS) instructions.

(** The name ['label%04X' % i]. *)
Definition label_name (i : Z) : string := "label" ++ Py.fmt_0X 4 i.

(** The text of a string of four hexadecimal digits. *)
Definition hex4 (d3 d2 d1 d0 : Z) : string :=
  String (Py.digit_char d3) (String (Py.digit_char d2)
    (String (Py.digit_char d1) (String (Py.digit_char d0) ""))).

Definition hex2 (d1 d0 : Z) : string :=
  String (Py.digit_char d1) (String (Py.digit_char d0) "").

(** An upper-case hexadecimal digit: its value is below sixteen, so
    [Py.digit_char] reads it from "0123456789ABCDEF". *)
Definition is_hex_digit (d : Z) : Prop := (0 <= d < 16)%Z.

(** The name the Memory Map gives a location, if it gives one. *)
Definition memory_name (location : Z) : option string :=
  match _MEMORY_MAP !! Z.to_nat location with
  | Some (Some n) => Some n
  | _ => None
  end.

(** A mnemonic of the tables is non-empty and has no surrounding blanks,
    so it passes [if opcode_name:] and [strip] returns it unchanged. *)
Definition good_name (n : string) : Prop :=
  Py.truthy (Some n) = true /\ Py.strip n = n.

#[global] Instance good_name_dec n : Decision (good_name n).
Proof. unfold good_name. apply _. Defined.

(** The legal code addresses. *)
Definition in_code_range (a : Z) : Prop :=
  (CODE_ADDRESS_START <= a <= CODE_ADDRESS_END)%Z.

(** One iteration of the label loop, seen from the target alone: a
    target already in the table is skipped, a new one takes the next
    label name. *)
Definition key_step (st : gmap (option Z) string * Z) (k : option Z)
    : gmap (option Z) string * Z :=
  match st.1 !! k with
  | Some _ => st
  | None => (<[k := label_name st.2]> st.1, (st.2 + 1)%Z)
  end.

(** The distinct values of a list, counted. *)
Definition count_distinct (ks : list (option Z)) : nat :=
  size (list_to_set ks : gset (option Z)).

(** An address is a target of the decoded program when an
    Address-format instruction of the program carries it as operand; the
    operand is the low eleven bits of the instruction's word, which is
    the word of the file at the instruction's position. *)
Definition is_target (self : Disassembler.t) (key : option Z) : Prop :=
  exists (k : nat) (i : Instruction.t),
    _instructions self !! k = Some i /\
    _words self !! k = Some (Instruction.word i) /\
    Instruction.type i = ADDRESS /\
    Instruction.first i = key /\
    key = Some (Z.land (Instruction.word i) 0x7FF).

(** ** Example programs *)

(** JMP 5; CALL 0; JMP 5; JMP 1, as decoded instructions. *)
Definition jmp5 (a : Z) : Instruction.t :=
  Instruction.mk a 0x2805 (Some 5%Z) None ADDRESS (Some "JMP").
Definition call0 (a : Z) : Instruction.t :=
  Instruction.mk a 0x2000 (Some 0%Z) None ADDRESS (Some "CALL").
Definition jmp1 (a : Z) : Instruction.t :=
  Instruction.mk a 0x2801 (Some 1%Z) None ADDRESS (Some "JMP").
Definition nop (a : Z) : Instruction.t :=
  Instruction.mk a 0x0000 None None SPECIAL (Some "NOP").

Definition jumps : Disassembler.t :=
  Disassembler.mk [0x2805; 0x2000; 0x2805; 0x2801]%Z 0
    [jmp5 0; call0 1; jmp5 2; jmp1 3] ∅ true.

(** The two-word file NOP; CALL 0, bytes in little-endian order, and the
    object [__init__] builds from it with labels enabled. *)
Definition nop_call_bytes : list Byte.byte :=
  [Byte.x00; Byte.x00; Byte.x00; Byte.x20].

Definition nop_call_fs : filesystem :=
  fun path => if String.eqb path "rom.bin" then Some nop_call_bytes else None.

Definition nop_call : Disassembler.t :=
  Disassembler.mk [0x0000; 0x2000]%Z 0 [nop 0; call0 1]
    (<[Some 0%Z := "label0000"]> ∅) true.

End Spec.

(** ** Definitions for the further properties *)

Module Extra.

Import Disassembler Spec.
Local Open Scope string_scope.

(** A test on the [n] integers from [z] upward. *)
Fixpoint all_from (n : nat) (z : Z) (P : Z -> bool) : bool :=
  match n with
  | O => true
  | S m => P z && all_from m (z + 1)%Z P
  end.

Definition between (lo w hi : Z) : bool := ((lo <=? w) && (w <? hi))%Z.

(** The format the first matching group gives a word, Invalid when no
    group matches. *)
Definition format_of (w : Z) : Format :=
  match first_match pattern_groups w with
  | Some (f, _) => f
  | None => INVALID
  end.

(** The word ranges of the Special, Address and Bit formats, and the
    upper half of the word space, as tests on one word. *)
Definition word_class_ok (w : Z) : bool :=
  let f := format_of w in
  Bool.eqb (bool_decide (f = SPECIAL)) (w <=? 5)%Z &&
  Bool.eqb (bool_decide (f = ADDRESS)) (between 0x2000 w 0x3000) &&
  Bool.eqb (bool_decide (f = BIT))
           (between 0x3000 w 0x4000 || between 0x7000 w 0x8000) &&
  (negb (0x8000 <=? w)%Z || bool_decide (f = INVALID)).

(** The table key of an Address or Bit word is the word less its
    operand fields. *)
Definition bit_key (w loc b : Z) : Z :=
  (w - 0x4000 * (loc / 0x80) - 0x80 * b - loc mod 0x80)%Z.

Definition operand_fields_ok (w : Z) : bool :=
  match first_match pattern_groups w with
  | Some (ADDRESS, n) =>
      bool_decide (_ADDRESS_OPCODES !! (w - Z.land w 0x7FF)%Z = Some n)
  | Some (BIT, n) =>
      bool_decide (_BIT_OPCODES
                     !! bit_key w (Instruction.get_data_address w)
                                  (Instruction.get_bit w) = Some n)
  | _ => true
  end.

(** A table entry is reached when the decoder, given the entry's key as
    the word, picks the entry's format and mnemonic. *)
Definition reaches (f : Format) (key : Z) (n : string) : Prop :=
  first_match pattern_groups key = Some (f, n).

#[global] Instance reaches_dec f key n : Decision (reaches f key n).
Proof. unfold reaches. apply _. Defined.

(** The value of a digit character: its position in the digit string. *)
Fixpoint index_of (c : ascii) (l : list ascii) : nat :=
  match l with
  | [] => O
  | x :: r => if Ascii.eqb c x then O else S (index_of c r)
  end.

Definition digit_value (c : ascii) : Z :=
  Z.of_nat (index_of c (list_ascii_of_string "0123456789ABCDEF")).

(** The counter values of a label table are in use one to one: each is
    below the counter, no two keys share one, and every value below the
    counter belongs to a key. *)
Definition numbered (st : gmap (option Z) Z * Z) : Prop :=
  (forall k j, st.1 !! k = Some j -> (0 <= j < st.2)%Z) /\
  (forall k1 k2 j, st.1 !! k1 = Some j -> st.1 !! k2 = Some j -> k1 = k2) /\
  (forall j, (0 <= j < st.2)%Z -> exists k, st.1 !! k = Some j) /\
  st.2 = Z.of_nat (size st.1).

(** The [k] low digits of [n] in a base, most significant first, put
    before [acc]. *)
Fixpoint fixed_digits (k : nat) (base n : Z) (acc : string) : string :=
  match k with
  | O => acc
  | S k' =>
      fixed_digits k' base (n / base)
        (String (Py.digit_char (n mod base)) acc)
  end.

(** Bit [j] of a word as a character, and the sixteen bits of a word
    from bit 15 down to bit 0. *)
Definition bit_char (w j : Z) : ascii :=
  if Z.testbit w j then "1"%char else "0"%char.

Definition binary16 (w : Z) : string :=
  string_of_list_ascii
    (bit_char w <$> [15; 14; 13; 12; 11; 10; 9; 8; 7; 6; 5; 4; 3; 2; 1; 0]%Z).

(** The text between the parentheses of an invalid-opcode line. *)
Definition invalid_text_ok (w : Z) : bool :=
  String.eqb (Py.zfill 16 (Py.drop2 (Py.bin w))) (binary16 w).

(** The mnemonic of an Address word, by the word's range. *)
Definition address_mnemonic (w : Z) : string :=
  if (w <? 0x2800)%Z then "CALL" else "JMP".

Definition address_word_ok (w : Z) : bool :=
  match first_match pattern_groups w with
  | Some (ADDRESS, n) => String.eqb n (address_mnemonic w)
  | _ => true
  end.

(** The operand helpers against the bit fields they read. *)
Definition operand_helpers_ok (w : Z) : bool :=
  ((Instruction.get_data_address w =? w mod 128 + 128 * (w / 16384 mod 2))
   && (Instruction.get_bit w =? w / 128 mod 8))%Z.

(** The label loop with the counter values kept instead of the names. *)
Definition index_step (st : gmap (option Z) Z * Z) (k : option Z)
    : gmap (option Z) Z * Z :=
  match st.1 !! k with
  | Some _ => st
  | None => (<[k := st.2]> st.1, (st.2 + 1)%Z)
  end.

(** The text [_lookup_memory_location] gives a location, empty when it
    raises, and the texts of the locations 0 to 0xFF. *)
Definition rendering (location : Z) : string :=
  match _lookup_memory_location location with
  | Ok s => s
  | Raise _ => ""
  end.

Definition data_space_renderings : list string :=
  rendering <$> seqZ 0 0x100.

(** The first ten characters of a line: address and word, each as four
    hexadecimal digits followed by a tab. *)
Definition line_prefix (address word : Z) : string :=
  hex4 (address / 4096) (address / 256 mod 16) (address / 16 mod 16)
       (address mod 16) ++ Py.tab ++
  hex4 (word / 4096) (word / 256 mod 16) (word / 16 mod 16) (word mod 16)
  ++ Py.tab.

(** The lines that come before an instruction's own line when its
    address has a label. *)
Definition label_header (self : Disassembler.t) (address : Z) : string :=
  match _labels self !! Some address with
  | Some l => Py.nl ++ l ++ ":" ++ Py.nl ++ Py.nl
  | None => ""
  end.

End Extra.

(** * Properties *)

Import Disassembler Spec Extra.
Local Open Scope string_scope.

(** ** The opcode tables *)

Lemma names_of_table (table : gmap Z string) :
  bool_decide (map_Forall (fun _ n => good_name n) table) = true ->
  forall k n, table !! k = Some n -> good_name n.
Proof.
  intros H k n Hk. apply bool_decide_eq_true_1 in H. exact (H k n Hk).
Qed.

Lemma special_names k n : _SPECIAL_OPCODES !! k = Some n -> good_name n.
Proof. apply names_of_table. vm_compute. reflexivity. Qed.

Lemma bit_names k n : _BIT_OPCODES !! k = Some n -> good_name n.
Proof. apply names_of_table. vm_compute. reflexivity. Qed.

Lemma address_names k n : _ADDRESS_OPCODES !! k = Some n -> good_name n.
Proof. apply names_of_table. vm_compute. reflexivity. Qed.

Lemma literal_names k n : _LITERAL_OPCODES !! k = Some n -> good_name n.
Proof. apply names_of_table. vm_compute. reflexivity. Qed.

Lemma m2a_names k n : _M2A_OPCODES !! k = Some n -> good_name n.
Proof. apply names_of_table. vm_compute. reflexivity. Qed.

Lemma other_names k f n :
  _OTHER_OPCODES !! k = Some (f, n) -> good_name n /\ f <> INVALID.
Proof.
  assert (H : bool_decide (map_Forall
    (fun (_ : Z) (d : Format * string) => good_name d.2 /\ d.1 <> INVALID)
    _OTHER_OPCODES) = true) by (vm_compute; reflexivity).
  apply bool_decide_eq_true_1 in H. intros Hk. exact (H k (f, n) Hk).
Qed.

Lemma masked_lookup_Some mask mark lst table w n :
  masked_lookup mask mark lst table w = Some n ->
  Z.land w mask = mark /\ table !! Z.land w lst = Some n.
Proof.
  unfold masked_lookup. destruct (Z.eqb_spec (Z.land w mask) mark); [|done].
  destruct (table !! Z.land w lst) as [s|]; simpl; [|done].
  destruct s; simpl; [done|]. intros [= <-]. done.
Qed.

(** Every match of a group carries a format other than Invalid and a
    mnemonic of a table. *)
Lemma group_match g w f n :
  g ∈ pattern_groups -> g w = Some (f, n) -> good_name n /\ f <> INVALID.
Proof.
  unfold pattern_groups. rewrite !elem_of_cons, elem_of_nil.
  unfold special_group, bit_group, address_group, other_group, literal_group,
    m2a_group, other_lookup.
  intros [->|[->|[->|[->|[->|[->|[]]]]]]] H;
    try (apply fmap_Some in H as (n' & H & [= -> ->]);
         apply masked_lookup_Some in H as [_ H]).
  - split; [by eapply special_names|done].
  - split; [by eapply bit_names|done].
  - split; [by eapply address_names|done].
  - by eapply other_names.
  - split; [by eapply literal_names|done].
  - split; [by eapply m2a_names|done].
Qed.

(** ** The Instruction constructor *)

Lemma init_named a n f w :
  in_code_range a -> good_name n ->
  Instruction.init a (Some n) f w
  = Ok (Instruction.mk a w (operands f w).1 (operands f w).2 f (Some n)).
Proof.
  unfold in_code_range, CODE_ADDRESS_START, CODE_ADDRESS_END.
  intros Ha [Ht Hs]. unfold Instruction.init.
  unfold CODE_ADDRESS_START, CODE_ADDRESS_END.
  destruct (Z.ltb_spec a 0); [lia|]. destruct (Z.gtb_spec a 2047); [lia|].
  simpl orb. cbv iota. rewrite Ht. simpl fmap. rewrite Hs, Ht.
  rewrite andb_false_r. by destruct f.
Qed.

Lemma init_invalid a w :
  in_code_range a ->
  Instruction.init a None INVALID w
  = Ok (Instruction.mk a w None None INVALID None).
Proof.
  unfold in_code_range, CODE_ADDRESS_START, CODE_ADDRESS_END.
  intros Ha. unfold Instruction.init.
  unfold CODE_ADDRESS_START, CODE_ADDRESS_END.
  destruct (Z.ltb_spec a 0); [lia|]. destruct (Z.gtb_spec a 2047); [lia|].
  reflexivity.
Qed.

(** ** The decoder is ordered priority matching *)

Lemma decode_word_priority a w :
  _decode_word a w = decode_with pattern_groups a w.
Proof.
  unfold _decode_word, decode_with, pattern_groups, first_match.
  unfold special_group, bit_group, address_group, other_group, literal_group,
    m2a_group.
  generalize (masked_lookup _SPECIAL_MASK _SPECIAL_MARK _SPECIAL_LIST
                _SPECIAL_OPCODES w),
    (masked_lookup _BIT_MASK _BIT_MARK _BIT_LIST _BIT_OPCODES w),
    (masked_lookup _ADDRESS_MASK _ADDRESS_MARK _ADDRESS_LIST
                _ADDRESS_OPCODES w),
    (other_lookup w),
    (masked_lookup _LITERAL_MASK _LITERAL_MARK _LITERAL_LIST
                _LITERAL_OPCODES w),
    (masked_lookup _M2A_MASK _M2A_MARK _M2A_LIST _M2A_OPCODES w).
  intros [n1|] [n2|] [n3|] [[f4 n4]|] [n5|] [n6|]; reflexivity.
Qed.

Lemma first_match_None gs w :
  first_match gs w = None <-> forall g, g ∈ gs -> g w = None.
Proof.
  induction gs as [|g gs IH]; simpl.
  - split; [|done]. intros _ g Hg. by apply elem_of_nil in Hg.
  - destruct (g w) eqn:E.
    + split; [done|]. intros H. rewrite (H g) in E; [done|]. apply elem_of_cons; auto.
    + rewrite IH. split.
      * intros H g' [->|Hg']%elem_of_cons; auto.
      * intros H g' Hg'. apply H, elem_of_cons; auto.
Qed.

(** The first match is the match of some group before which no group
    matches. *)
Lemma first_match_Some gs w d :
  first_match gs w = Some d <->
  exists k g, gs !! k = Some g /\ g w = Some d /\
    forall j g', (j < k)%nat -> gs !! j = Some g' -> g' w = None.
Proof.
  revert d. induction gs as [|g gs IH]; intros d; simpl.
  - split; [done|]. by intros (k & g & Hk & _).
  - destruct (g w) as [d'|] eqn:E.
    + split.
      * intros [= <-]. exists 0%nat, g. split; [done|]. split; [done|]. lia.
      * intros (k & g0 & Hk & Hg0 & Hlt). destruct k as [|k].
        -- simpl in Hk. injection Hk as <-. congruence.
        -- specialize (Hlt 0%nat g ltac:(lia) eq_refl). congruence.
    + rewrite IH. split.
      * intros (k & g0 & Hk & Hg0 & Hlt). exists (S k), g0.
        split; [done|]. split; [done|].
        intros [|j] g' Hj Hg'; simpl in Hg'; [congruence|].
        apply (Hlt j); [lia|done].
      * intros (k & g0 & Hk & Hg0 & Hlt). destruct k as [|k].
        -- simpl in Hk. congruence.
        -- exists k, g0. split; [done|]. split; [done|].
           intros j g' Hj Hg'. apply (Hlt (S j)); [lia|done].
Qed.

Lemma group_lookup_elem (gs : list group) k g : gs !! k = Some g -> g ∈ gs.
Proof. intros H. apply list_elem_of_lookup. by exists k. Qed.

Lemma format_member (f : Format) : f ∈ Format_members.
Proof. unfold Format_members. destruct f; set_solver. Qed.

(** What the decoder returns on a word some group matches first, and on
    a word no group matches. *)
Lemma decode_word_matched a w f n :
  in_code_range a -> first_match pattern_groups w = Some (f, n) ->
  good_name n /\ f <> INVALID /\
  _decode_word a w
  = Ok (Instruction.mk a w (operands f w).1 (operands f w).2 f (Some n)).
Proof.
  intros Ha Hm. rewrite decode_word_priority. unfold decode_with.
  rewrite Hm. unfold decoding.
  apply first_match_Some in Hm as (k & g & Hk & Hg & _).
  destruct (group_match g w f n (group_lookup_elem _ _ _ Hk) Hg) as [Hn Hf].
  split; [done|]. split; [done|]. by apply init_named.
Qed.

Lemma decode_word_unmatched a w :
  in_code_range a -> first_match pattern_groups w = None ->
  _decode_word a w = Ok (Instruction.mk a w None None INVALID None).
Proof.
  intros Ha Hm. rewrite decode_word_priority. unfold decode_with.
  rewrite Hm. by apply init_invalid.
Qed.

(** C1.  For every word [w] (every integer, so every 16-bit word) and
    every address [a] in [0x0000, 0x07FF], [_decode_word] raises nothing
    and returns one Instruction, at that address and for that word, whose
    format is one of the eight members of [Format]; the format is Invalid
    exactly when no pattern group matches the word, and such a word is
    decoded, not rejected. *)
Theorem decode_word_total (w a : Z) :
  (CODE_ADDRESS_START <= a <= CODE_ADDRESS_END)%Z ->
  exists i : Instruction.t,
    _decode_word a w = Ok i /\
    Instruction.address i = a /\ Instruction.word i = w /\
    Instruction.type i ∈ Format_members /\
    (Instruction.type i = INVALID <->
     forall g, g ∈ pattern_groups -> g w = None).
Proof.
  intros Ha. destruct (first_match pattern_groups w) as [[f n]|] eqn:Hm.
  - destruct (decode_word_matched a w f n Ha Hm) as (Hn & Hf & ->).
    eexists. split; [reflexivity|]. cbn.
    split; [done|]. split; [done|]. split; [apply format_member|].
    split; [done|]. intros Hnone. apply first_match_None in Hnone. congruence.
  - rewrite (decode_word_unmatched a w Ha Hm).
    eexists. split; [reflexivity|]. cbn.
    split; [done|]. split; [done|]. split; [apply format_member|].
    split; [|done]. intros _. by apply first_match_None.
Qed.

Lemma decode_word_total_witness :
  exists i : Instruction.t,
    _decode_word 0x07FF 0x0006 = Ok i /\
    Instruction.address i = 0x07FF%Z /\ Instruction.word i = 0x0006%Z /\
    Instruction.type i ∈ Format_members /\
    (Instruction.type i = INVALID <->
     forall g, g ∈ pattern_groups -> g 0x0006%Z = None).
Proof.
  apply (decode_word_total 0x0006 0x07FF).
  unfold CODE_ADDRESS_START, CODE_ADDRESS_END. lia.
Defined.

(** C2.  [_decode_word] is ordered priority matching over the groups
    Special, Bit, Address, Other, Literal, M2A fallback: it returns the
    decoding of the first group that matches, so a group decides the
    result whenever no group before it matches; when two groups match a
    word the result comes from the earliest matching group, which is not
    after the earlier of the two.  Word 0x1900 is matched by the Other
    table (RRA) and by the Literal group (RET) and decodes as Other;
    word 0x3000 is matched by Bit (SET) and by Other (SZA) and decodes as
    Bit. *)
Theorem decode_word_first_match :
  pattern_groups
  = [special_group; bit_group; address_group; other_group; literal_group;
     m2a_group] /\
  (forall a w, _decode_word a w = decode_with pattern_groups a w) /\
  (forall a w k g d,
     pattern_groups !! k = Some g -> g w = Some d ->
     (forall j g', (j < k)%nat -> pattern_groups !! j = Some g' ->
                   g' w = None) ->
     _decode_word a w = decoding a w (Some d)) /\
  (forall a w j k gj gk dj dk,
     (j < k)%nat ->
     pattern_groups !! j = Some gj -> pattern_groups !! k = Some gk ->
     gj w = Some dj -> gk w = Some dk ->
     exists i gi di,
       (i <= j)%nat /\ pattern_groups !! i = Some gi /\ gi w = Some di /\
       (forall e ge, (e < i)%nat -> pattern_groups !! e = Some ge ->
                     ge w = None) /\
       _decode_word a w = decoding a w (Some di)) /\
  (other_group 0x1900 = Some (MEMORY, "RRA") /\
   literal_group 0x1900 = Some (LITERAL, "RET") /\
   _decode_word 0 0x1900
   = Ok (Instruction.mk 0 0x1900 (Some 0%Z) None MEMORY (Some "RRA"))) /\
  (bit_group 0x3000 = Some (BIT, "SET") /\
   other_group 0x3000 = Some (MEMORY, "SZA") /\
   _decode_word 0 0x3000
   = Ok (Instruction.mk 0 0x3000 (Some 0%Z) (Some 0%Z) BIT (Some "SET"))).
Proof.
  split; [reflexivity|]. split; [apply decode_word_priority|].
  assert (Hfirst : forall a w k g d,
     pattern_groups !! k = Some g -> g w = Some d ->
     (forall j g', (j < k)%nat -> pattern_groups !! j = Some g' ->
                   g' w = None) ->
     _decode_word a w = decoding a w (Some d)).
  { intros a w k g d Hk Hg Hlt. rewrite decode_word_priority.
    unfold decode_with. f_equal. apply first_match_Some. eauto 6. }
  split; [exact Hfirst|]. split.
  - intros a w j k gj gk dj dk Hjk Hj Hk Hgj Hgk.
    destruct (first_match pattern_groups w) as [d|] eqn:Hm.
    + pose proof Hm as Hm'.
      apply first_match_Some in Hm' as (i & gi & Hi & Hgi & Hlt).
      exists i, gi, d. split.
      * destruct (decide (i <= j)%nat) as [|Hn]; [done|].
        rewrite (Hlt j gj) in Hgj; [done|lia|done].
      * split; [done|]. split; [done|]. split; [done|]. by eapply Hfirst.
    + rewrite first_match_None in Hm.
      rewrite (Hm gj) in Hgj; [done|]. by eapply group_lookup_elem.
  - split; (split; [vm_compute; reflexivity|]);
      (split; [vm_compute; reflexivity|]); vm_compute; reflexivity.
Qed.

Lemma decode_word_first_match_witness :
  _decode_word 5 0x3900 = decoding 5 0x3900 (Some (BIT, "SNZ")).
Proof.
  apply (proj1 (proj2 (proj2 decode_word_first_match))
           5%Z 0x3900%Z 1%nat bit_group (BIT, "SNZ")).
  - reflexivity.
  - vm_compute. reflexivity.
  - intros [|j] g' Hj Hg'; [|lia].
    injection Hg' as <-. vm_compute. reflexivity.
Defined.

(** ** The M2A fallback *)

Lemma m2a_table_values k n : _M2A_OPCODES !! k = Some n -> n = "MOV".
Proof.
  assert (H : bool_decide (map_Forall (fun (_ : Z) (n : string) => n = "MOV")
                             _M2A_OPCODES) = true) by (vm_compute; reflexivity).
  apply bool_decide_eq_true_1 in H. intros Hk. exact (H k n Hk).
Qed.

Lemma other_lookup_m2a w :
  Z.land w _M2A_MASK = _M2A_MARK -> other_lookup w = Some (M2A, "MOV").
Proof.
  unfold other_lookup, _OTHER_OPCODES_MASK, _M2A_MASK, _M2A_MARK.
  intros ->. vm_compute. reflexivity.
Qed.

Lemma m2a_group_covered w d :
  m2a_group w = Some d -> d = (M2A, "MOV") /\ other_group w = Some d.
Proof.
  unfold m2a_group, other_group. intros H.
  apply fmap_Some in H as (n & H & ->).
  apply masked_lookup_Some in H as [Hmask Hn].
  apply m2a_table_values in Hn as ->. split; [done|].
  by apply other_lookup_m2a.
Qed.

(** C8.  The M2A fallback never decides the result: a word that passes
    its mask/mark test [(word & 0x9F80) == 0x0080] is found in the Other
    table with the same format M2A and mnemonic MOV, every match of the
    fallback group is that match of the Other group, and the decoder is
    equal, at every address and word, to ordered matching over the first
    five groups only. *)
Theorem m2a_fallback_unreachable (a w : Z) :
  (Z.land w 0x9F80 = 0x0080%Z -> other_lookup w = Some (M2A, "MOV")) /\
  (forall d, m2a_group w = Some d ->
             d = (M2A, "MOV") /\ other_group w = Some d) /\
  pattern_groups = (pattern_groups_no_fallback ++ [m2a_group])%list /\
  _decode_word a w = decode_with pattern_groups_no_fallback a w.
Proof.
  split; [apply other_lookup_m2a|]. split; [apply m2a_group_covered|].
  split; [reflexivity|].
  rewrite decode_word_priority. unfold decode_with. f_equal.
  unfold pattern_groups, pattern_groups_no_fallback, first_match.
  pose proof (m2a_group_covered w) as Hcov. revert Hcov.
  generalize (special_group w), (bit_group w), (address_group w),
    (other_group w), (literal_group w), (m2a_group w).
  intros [d1|] [d2|] [d3|] [d4|] [d5|] [d6|] Hcov; try reflexivity.
  by destruct (Hcov d6 eq_refl) as [_ ?].
Qed.

Lemma m2a_fallback_unreachable_witness :
  other_lookup 0x20FF = Some (M2A, "MOV") /\
  _decode_word 3 0x20FF = decode_with pattern_groups_no_fallback 3 0x20FF.
Proof.
  destruct (m2a_fallback_unreachable 3 0x20FF) as (H1 & _ & _ & H4).
  split; [apply H1; reflexivity|exact H4].
Defined.

(** ** The label resolver *)

Lemma assign_step_key st i :
  assign_step st i
  = if decide (Instruction.type i = ADDRESS)
    then key_step st (Instruction.first i) else st.
Proof.
  unfold assign_step, key_step. destruct st as [labels c]; simpl.
  destruct (decide _); [|done]. by destruct (labels !! Instruction.first i).
Qed.

Lemma assign_fold_targets instructions : forall st,
  foldl assign_step st instructions = foldl key_step st (targets instructions).
Proof.
  unfold targets.
  induction instructions as [|i r IH]; intros st; [done|].
  simpl foldl. rewrite IH, assign_step_key, filter_cons.
  by destruct (decide _).
Qed.

Lemma key_fold_preserve ts : forall labels c k v,
  labels !! k = Some v -> (foldl key_step (labels, c) ts).1 !! k = Some v.
Proof.
  induction ts as [|x r IH]; intros labels c k v Hk; [done|].
  simpl foldl. unfold key_step at 2; simpl.
  destruct (labels !! x) eqn:Hx; [by apply IH|].
  apply IH. rewrite lookup_insert_ne; [done|]. congruence.
Qed.

Lemma key_fold_dom ts : forall labels c,
  dom (foldl key_step (labels, c) ts).1 = dom labels ∪ list_to_set ts.
Proof.
  induction ts as [|x r IH]; intros labels c; simpl foldl.
  - simpl. set_solver.
  - unfold key_step at 2; simpl. destruct (labels !! x) eqn:Hx.
    + rewrite IH. apply (elem_of_dom_2 (D := gset (option Z))) in Hx.
      set_solver.
    + rewrite IH, dom_insert_L. set_solver.
Qed.

Lemma key_fold_present ts : forall labels c,
  (forall k, k ∈ ts -> is_Some (labels !! k)) ->
  foldl key_step (labels, c) ts = (labels, c).
Proof.
  induction ts as [|x r IH]; intros labels c Hall; [done|].
  simpl foldl. unfold key_step at 2; simpl.
  destruct (Hall x) as [v Hv]; [apply elem_of_cons; auto|].
  rewrite Hv. apply IH. intros k Hk. apply Hall, elem_of_cons. auto.
Qed.

(** The label of a target is numbered by the new targets met before its
    first occurrence. *)
Lemma key_fold_first ts : forall labels c p1 k p2,
  ts = (p1 ++ k :: p2)%list -> k ∉ p1 -> labels !! k = None ->
  (foldl key_step (labels, c) ts).1 !! k
  = Some (label_name
            (c + Z.of_nat (size (list_to_set p1 ∖ dom labels
                                 : gset (option Z))))).
Proof.
  induction ts as [|x r IH]; intros labels c p1 k p2 Hts Hk Hnone.
  - by destruct p1.
  - destruct p1 as [|y p1]; simpl in Hts; injection Hts as -> ->.
    + simpl foldl. unfold key_step at 2. cbn [fst snd]. rewrite Hnone.
      rewrite (key_fold_preserve _ _ _ k (label_name c));
        [|by rewrite lookup_insert_eq].
      rewrite list_to_set_nil, difference_disjoint_L by set_solver.
      rewrite size_empty. do 2 f_equal. lia.
    + apply not_elem_of_cons in Hk as [Hky Hk].
      simpl foldl. unfold key_step at 2. cbn [fst snd].
      rewrite list_to_set_cons.
      destruct (labels !! y) eqn:Hy.
      * rewrite (IH labels c p1 k p2 eq_refl Hk Hnone).
        apply (elem_of_dom_2 (D := gset (option Z))) in Hy.
        assert (({[y]} ∪ list_to_set p1) ∖ dom labels
                = list_to_set p1 ∖ dom labels :> gset (option Z)) as ->
          by set_solver.
        done.
      * rewrite (IH (<[y:=label_name c]> labels) (c + 1)%Z p1 k p2 eq_refl Hk)
          by (by rewrite lookup_insert_ne).
        rewrite dom_insert_L.
        apply (not_elem_of_dom_2 (D := gset (option Z))) in Hy.
        assert (({[y]} ∪ list_to_set p1) ∖ dom labels
                = {[y]} ∪ list_to_set p1 ∖ ({[y]} ∪ dom labels)
                :> gset (option Z)) as ->
          by (apply set_eq; intros z; destruct (decide (z = y)); set_solver).
        rewrite (size_union (C := gset (option Z)) {[y]}) by set_solver.
        rewrite size_singleton.
        do 2 f_equal. lia.
Qed.

Lemma assign_labels_from_targets labels instructions :
  assign_labels_from labels instructions
  = (foldl key_step (labels, 0%Z) (targets instructions)).1.
Proof. unfold assign_labels_from. by rewrite assign_fold_targets. Qed.

Lemma assign_labels_from_dom labels instructions :
  dom (assign_labels_from labels instructions)
  = dom labels ∪ list_to_set (targets instructions).
Proof. rewrite assign_labels_from_targets. apply key_fold_dom. Qed.

Lemma assign_labels_from_idem labels instructions :
  assign_labels_from (assign_labels_from labels instructions) instructions
  = assign_labels_from labels instructions.
Proof.
  rewrite (assign_labels_from_targets (assign_labels_from _ _)).
  rewrite key_fold_present; [done|].
  intros k Hk. apply (elem_of_dom (D := gset (option Z))).
  rewrite assign_labels_from_dom. set_solver.
Qed.

Lemma targets_app l1 l2 : targets (l1 ++ l2) = (targets l1 ++ targets l2)%list.
Proof. unfold targets. by rewrite filter_app, fmap_app. Qed.

(** ** Hexadecimal formatting *)

Lemma digits_fuel_S f base n acc :
  Py.digits_fuel (S f) base n acc
  = if (n / base =? 0)%Z then String (Py.digit_char (n mod base)) acc
    else Py.digits_fuel f base (n / base)
           (String (Py.digit_char (n mod base)) acc).
Proof. reflexivity. Qed.

Lemma fuel_enough (i : Z) (k : nat) :
  (2 ^ Z.of_nat k <= i)%Z -> exists f, Z.to_nat (Z.log2 i) = (k + f)%nat.
Proof.
  intros H. assert (0 < i)%Z by (pose proof (Z.pow_pos_nonneg 2 (Z.of_nat k)); lia).
  apply Z.log2_le_pow2 in H; [|done].
  exists (Z.to_nat (Z.log2 i) - k)%nat. lia.
Qed.

Ltac div_lia := Z.to_euclidean_division_equations; lia.

Lemma digits16_1 i :
  (0 <= i < 16)%Z -> Py.digits 16 i = String (Py.digit_char i) "".
Proof.
  intros H. unfold Py.digits. rewrite digits_fuel_S.
  rewrite Z.div_small, Z.mod_small by lia. reflexivity.
Qed.

Lemma digits16_2 i :
  (16 <= i < 256)%Z -> Py.digits 16 i = hex2 (i / 16) (i mod 16).
Proof.
  intros H. unfold Py.digits.
  destruct (fuel_enough i 1) as [f ->]; [simpl; lia|].
  simpl Nat.add. rewrite !digits_fuel_S.
  destruct (Z.eqb_spec (i / 16) 0); [div_lia|].
  rewrite (Z.div_small (i / 16)), (Z.mod_small (i / 16)) by div_lia.
  reflexivity.
Qed.

Lemma digits16_3 i :
  (256 <= i < 4096)%Z ->
  Py.digits 16 i
  = String (Py.digit_char (i / 256)) (hex2 (i / 16 mod 16) (i mod 16)).
Proof.
  intros H. unfold Py.digits.
  destruct (fuel_enough i 2) as [f ->]; [simpl; lia|].
  simpl Nat.add. rewrite !digits_fuel_S.
  destruct (Z.eqb_spec (i / 16) 0); [div_lia|].
  destruct (Z.eqb_spec (i / 16 / 16) 0); [div_lia|].
  rewrite (Z.div_small (i / 16 / 16)), (Z.mod_small (i / 16 / 16)) by div_lia.
  rewrite (Z.div_div i 16 16) by lia. reflexivity.
Qed.

Lemma digits16_4 i :
  (4096 <= i < 65536)%Z ->
  Py.digits 16 i = hex4 (i / 4096) (i / 256 mod 16) (i / 16 mod 16) (i mod 16).
Proof.
  intros H. unfold Py.digits.
  destruct (fuel_enough i 3) as [f ->]; [simpl; lia|].
  simpl Nat.add. rewrite !digits_fuel_S.
  destruct (Z.eqb_spec (i / 16) 0); [div_lia|].
  destruct (Z.eqb_spec (i / 16 / 16) 0); [div_lia|].
  destruct (Z.eqb_spec (i / 16 / 16 / 16) 0); [div_lia|].
  rewrite (Z.div_small (i / 16 / 16 / 16)),
    (Z.mod_small (i / 16 / 16 / 16)) by div_lia.
  rewrite !(Z.div_div i 16 16), (Z.div_div i (16 * 16) 16) by lia.
  reflexivity.
Qed.

(** ['%04X' % i] is four upper-case hexadecimal digits for a value below
    0x10000, and ['%02X' % i] is two for a value below 0x100. *)
Lemma fmt_04X_digits i :
  (0 <= i < 0x10000)%Z ->
  Py.fmt_0X 4 i = hex4 (i / 4096) (i / 256 mod 16) (i / 16 mod 16) (i mod 16).
Proof.
  intros H. unfold Py.fmt_0X.
  destruct (Z.ltb_spec i 0); [lia|]. rewrite Z.abs_eq by lia.
  destruct (Z_lt_le_dec i 16); [|destruct (Z_lt_le_dec i 256);
    [|destruct (Z_lt_le_dec i 4096)]].
  - rewrite digits16_1 by lia.
    rewrite (Z.div_small i 4096), (Z.div_small i 256), (Z.div_small i 16),
      (Z.mod_small i 16) by lia. reflexivity.
  - rewrite digits16_2 by lia.
    rewrite (Z.div_small i 4096), (Z.div_small i 256),
      (Z.mod_small (i / 16) 16) by div_lia. reflexivity.
  - rewrite digits16_3 by lia.
    rewrite (Z.div_small i 4096), (Z.mod_small (i / 256) 16) by div_lia.
    reflexivity.
  - rewrite digits16_4 by lia. reflexivity.
Qed.

Lemma fmt_02X_digits i :
  (0 <= i < 0x100)%Z -> Py.fmt_0X 2 i = hex2 (i / 16) (i mod 16).
Proof.
  intros H. unfold Py.fmt_0X.
  destruct (Z.ltb_spec i 0); [lia|]. rewrite Z.abs_eq by lia.
  destruct (Z_lt_le_dec i 16).
  - rewrite digits16_1 by lia.
    rewrite (Z.div_small i 16), (Z.mod_small i 16) by lia. reflexivity.
  - rewrite digits16_2 by lia. reflexivity.
Qed.

(** C3.  [_assign_labels] is idempotent and depends on the instruction
    sequence and the starting table only: running it again on the object
    it has updated changes nothing, and two objects with the same
    instructions and starting table get the same table.  Starting from
    the empty table, the target of an Address-format instruction that is
    the first to carry it is named ['label%04X' % i], where [i] counts
    the distinct targets of the Address-format instructions before it, so
    the first new target gets index 0; the name is "label" followed by
    four upper-case, zero-padded hexadecimal digits for every index
    below 0x10000. *)
Theorem assign_labels_idempotent_numbered (self : Disassembler.t) :
  _assign_labels (_assign_labels self) = _assign_labels self /\
  (forall other : Disassembler.t,
     _instructions other = _instructions self ->
     _labels other = _labels self ->
     _labels (_assign_labels other) = _labels (_assign_labels self)) /\
  (_labels self = ∅ ->
   forall pre ins post,
     _instructions self = (pre ++ ins :: post)%list ->
     Instruction.type ins = ADDRESS ->
     Instruction.first ins ∉ targets pre ->
     _labels (_assign_labels self) !! Instruction.first ins
     = Some (label_name (Z.of_nat (count_distinct (targets pre))))) /\
  label_name 0 = "label0000" /\
  (forall i : Z, (0 <= i < 0x10000)%Z ->
     exists d3 d2 d1 d0,
       is_hex_digit d3 /\ is_hex_digit d2 /\ is_hex_digit d1 /\
       is_hex_digit d0 /\ i = (4096 * d3 + 256 * d2 + 16 * d1 + d0)%Z /\
       label_name i = "label" ++ hex4 d3 d2 d1 d0).
Proof.
  split; [|split; [|split; [|split]]].
  - destruct self as [ws ca ins ls hl]. unfold _assign_labels; simpl.
    by rewrite assign_labels_from_idem.
  - intros other Hi Hl. unfold _assign_labels; simpl. by rewrite Hi, Hl.
  - intros Hempty pre ins post Hins Hty Hfirst.
    unfold _assign_labels; simpl _labels. rewrite Hempty, Hins.
    rewrite assign_labels_from_targets, targets_app.
    assert (Ht : targets (ins :: post)
                 = Instruction.first ins :: targets post).
    { unfold targets. rewrite filter_cons. by destruct (decide _). }
    rewrite Ht.
    rewrite (key_fold_first _ ∅ 0%Z (targets pre) (Instruction.first ins)
               (targets post) eq_refl Hfirst (lookup_empty _)).
    rewrite dom_empty_L, difference_empty_L. reflexivity.
  - reflexivity.
  - intros i Hi. exists (i / 4096)%Z, (i / 256 mod 16)%Z, (i / 16 mod 16)%Z,
      (i mod 16)%Z. unfold is_hex_digit, label_name.
    rewrite fmt_04X_digits by done.
    repeat split; try div_lia.
Qed.

Lemma assign_labels_idempotent_numbered_witness :
  _labels (_assign_labels jumps) !! Instruction.first (call0 1)
  = Some (label_name (Z.of_nat (count_distinct (targets [jmp5 0])))) /\
  exists d3 d2 d1 d0,
    is_hex_digit d3 /\ is_hex_digit d2 /\ is_hex_digit d1 /\
    is_hex_digit d0 /\ 0x2B = (4096 * d3 + 256 * d2 + 16 * d1 + d0)%Z /\
    label_name 0x2B = "label" ++ hex4 d3 d2 d1 d0.
Proof.
  destruct (assign_labels_idempotent_numbered jumps) as (_ & _ & H3 & _ & H5).
  split.
  - apply (H3 eq_refl [jmp5 0] (call0 1) [jmp5 2; jmp1 3] eq_refl eq_refl).
    unfold targets. cbn. intros H. apply list_elem_of_singleton in H.
    discriminate H.
  - apply H5. lia.
Defined.

(** ** Decoding the whole program *)

Lemma bind_Ok {A B} (r : result A) (k : A -> result B) b :
  bind r k = Ok b -> exists a, r = Ok a /\ k a = Ok b.
Proof. destruct r as [a|e]; simpl; [eauto|done]. Qed.

Lemma map_enumerate_Ok {A B} (f : Z -> A -> result B) l : forall i r,
  map_enumerate f i l = Ok r ->
  length r = length l /\
  forall (k : nat) y, r !! k = Some y ->
    exists x, l !! k = Some x /\ f (i + Z.of_nat k)%Z x = Ok y.
Proof.
  induction l as [|x l IH]; intros i r H; simpl in H.
  - injection H as <-. split; [done|]. intros k y Hk. by destruct k.
  - apply bind_Ok in H as (y & Hy & H).
    apply bind_Ok in H as (ys & Hys & [= <-]).
    destruct (IH _ _ Hys) as [Hlen Hall]. split; [simpl; lia|].
    intros [|k] y' Hk; simpl in Hk.
    + injection Hk as <-. exists x. split; [done|].
      by rewrite Z.add_0_r.
    + destruct (Hall k y' Hk) as (x' & Hx' & Hf). exists x'.
      split; [done|]. rewrite <- Hf. f_equal. lia.
Qed.

Lemma map_enumerate_returns {A B} (f : Z -> A -> result B) l : forall i,
  (forall (k : nat) x, l !! k = Some x -> returns (f (i + Z.of_nat k)%Z x)) ->
  returns (map_enumerate f i l).
Proof.
  induction l as [|x l IH]; intros i H; simpl.
  - by eexists.
  - destruct (H 0%nat x eq_refl) as [y Hy]. rewrite Z.add_0_r in Hy.
    rewrite Hy. simpl.
    destruct (IH (i + 1)%Z) as [ys Hys].
    { intros k x' Hk. replace (i + 1 + Z.of_nat k)%Z
        with (i + Z.of_nat (S k))%Z by lia. by apply H. }
    rewrite Hys. simpl. by eexists.
Qed.

Lemma unpack_le16_length bs : forall n,
  length bs = (2 * n)%nat -> length (unpack_le16 bs) = n.
Proof.
  induction bs as [bs IH] using (induction_ltof1 _ (@length _)).
  unfold ltof in IH. intros n Hn.
  destruct bs as [|b0 [|b1 r]]; simpl in *; [lia|lia|].
  destruct n as [|n]; [lia|]. f_equal. apply IH; lia.
Qed.

Lemma unpack_le16_lookup bs : forall (k : nat) b0 b1,
  bs !! (2 * k)%nat = Some b0 -> bs !! (2 * k + 1)%nat = Some b1 ->
  unpack_le16 bs !! k = Some (byte_val b0 + 256 * byte_val b1)%Z.
Proof.
  induction bs as [bs IH] using (induction_ltof1 _ (@length _)).
  unfold ltof in IH. intros k b0 b1 H0 H1.
  destruct bs as [|c0 [|c1 r]]; [done| |].
  - destruct k; simpl in H1; [done|].
    replace (k + S (k + 0) + 1)%nat with (S (S (2 * k)))%nat in H1 by lia.
    done.
  - destruct k as [|k].
    + simpl in *. by injection H0 as <-; injection H1 as <-.
    + replace (2 * S k)%nat with (S (S (2 * k))) in H0 by lia.
      replace (2 * S k + 1)%nat with (S (S (2 * k + 1))) in H1 by lia.
      simpl in H0, H1. simpl unpack_le16. simpl.
      apply IH; [simpl; lia|done|done].
Qed.

(** The shape of a decoded instruction. *)
Lemma decode_word_shape a w i :
  in_code_range a -> _decode_word a w = Ok i ->
  (exists f n, good_name n /\ f <> INVALID /\
     i = Instruction.mk a w (operands f w).1 (operands f w).2 f (Some n)) \/
  i = Instruction.mk a w None None INVALID None.
Proof.
  intros Ha H. destruct (first_match pattern_groups w) as [[f n]|] eqn:Hm.
  - destruct (decode_word_matched a w f n Ha Hm) as (Hn & Hf & Hd).
    left. exists f, n. split; [done|]. split; [done|]. congruence.
  - right. rewrite (decode_word_unmatched a w Ha Hm) in H. congruence.
Qed.

(** What [__init__] establishes: the words come from the loader, the
    instructions are the words decoded at their positions, and the label
    table is the resolver's, or empty when labels are disabled. *)
Lemma init_Ok fs path labels d :
  Disassembler.init fs path labels = Ok d ->
  _load_binary_file fs path = Ok (_words d) /\
  map_enumerate _decode_word 0%Z (_words d) = Ok (_instructions d) /\
  _has_labels d = labels /\
  _labels d = if labels then assign_labels_from ∅ (_instructions d) else ∅.
Proof.
  unfold Disassembler.init. intros H.
  apply bind_Ok in H as (ws & Hws & H).
  apply bind_Ok in H as (ins & Hins & H).
  destruct labels; injection H as <-; simpl; by rewrite ?Hws.
Qed.

Lemma load_binary_file_length fs path ws :
  _load_binary_file fs path = Ok ws ->
  (0 < length ws <= 0x800)%nat.
Proof.
  unfold _load_binary_file. destruct (fs path) as [content|]; [|done].
  unfold CODE_FILE_MAX_SIZE.
  destruct (Z.eqb_spec (Z.of_nat (length content)) 0); [done|].
  destruct (Z.eqb_spec (Z.of_nat (length content) mod 2) 1); [done|].
  destruct (Z.gtb_spec (Z.of_nat (length content)) 4096); [done|].
  rewrite Nat2Z.id, firstn_all.
  rewrite Z.eqb_refl. simpl negb. cbv iota. intros [= <-].
  assert (Hlen : length content
                 = (2 * Z.to_nat (Z.of_nat (length content) / 2))%nat)
    by (zify; div_lia).
  rewrite (unpack_le16_length content _ Hlen). zify. div_lia.
Qed.

Lemma elem_of_targets key instructions :
  key ∈ targets instructions <->
  exists i, i ∈ instructions /\ Instruction.type i = ADDRESS /\
            Instruction.first i = key.
Proof.
  unfold targets. rewrite list_elem_of_fmap. split.
  - intros (i & -> & Hi). apply list_elem_of_filter in Hi as [Hty Hi]. eauto.
  - intros (i & Hi & Hty & <-). exists i. split; [done|].
    by apply list_elem_of_filter.
Qed.

(** Every instruction of the object is the word at its position, decoded
    at that position, which is a legal code address. *)
Lemma init_instruction fs path labels d (k : nat) i :
  Disassembler.init fs path labels = Ok d ->
  _instructions d !! k = Some i ->
  _words d !! k = Some (Instruction.word i) /\
  in_code_range (Z.of_nat k) /\
  _decode_word (Z.of_nat k) (Instruction.word i) = Ok i.
Proof.
  intros Hd Hk. destruct (init_Ok _ _ _ _ Hd) as (Hload & Hdec & _ & _).
  apply load_binary_file_length in Hload.
  destruct (map_enumerate_Ok _ _ _ _ Hdec) as [Hlen Hall].
  destruct (Hall k i Hk) as (w & Hw & Hf). rewrite Z.add_0_l in Hf.
  assert (Ha : in_code_range (Z.of_nat k)).
  { apply lookup_lt_Some in Hw.
    unfold in_code_range, CODE_ADDRESS_START, CODE_ADDRESS_END. lia. }
  assert (Instruction.word i = w) as ->.
  { destruct (decode_word_shape _ _ _ Ha Hf) as [(f & n & _ & _ & ->)| ->];
      reflexivity. }
  done.
Qed.

Lemma decode_word_address_operand a w i :
  in_code_range a -> _decode_word a w = Ok i ->
  Instruction.type i = ADDRESS ->
  Instruction.first i = Some (Z.land w 0x7FF).
Proof.
  intros Ha Hdec.
  destruct (decode_word_shape _ _ _ Ha Hdec) as [(f & n & _ & _ & ->)| ->];
    simpl; [|done].
  by intros ->.
Qed.

Lemma resolver_table fs path labels d :
  Disassembler.init fs path labels = Ok d ->
  _labels (_assign_labels d) = assign_labels_from ∅ (_instructions d).
Proof.
  intros Hd. destruct (init_Ok _ _ _ _ Hd) as (_ & _ & _ & Hl).
  unfold _assign_labels; simpl _labels. rewrite Hl.
  destruct labels; [apply assign_labels_from_idem|done].
Qed.

(** C4.  In the label table [_assign_labels] builds for the decoded
    program, a key is present if and only if it is the target operand,
    the low eleven bits of the word, of an Address-format instruction at
    some position of the program, before or after the target; no other
    key, so no [None] and no address outside [0, 0x7FF], is present.
    With labels enabled that table is the object's [_labels]; with
    labels disabled the pass is skipped and [_labels] stays empty, so in
    either case a key of [_labels] is a target. *)
Theorem label_keys_are_targets fs path labels (d : Disassembler.t) :
  Disassembler.init fs path labels = Ok d ->
  (forall key : option Z,
     is_Some (_labels (_assign_labels d) !! key) <-> is_target d key) /\
  (forall key : option Z, is_Some (_labels (_assign_labels d) !! key) ->
     exists a : Z, key = Some a /\ (0 <= a <= 0x7FF)%Z) /\
  (labels = true -> _labels d = _labels (_assign_labels d)) /\
  (labels = false -> _labels d = ∅) /\
  (forall key : option Z, is_Some (_labels d !! key) -> is_target d key).
Proof.
  intros Hd. pose proof (resolver_table _ _ _ _ Hd) as Htab.
  destruct (init_Ok _ _ _ _ Hd) as (_ & _ & _ & Hl).
  assert (Hiff : forall key,
            is_Some (_labels (_assign_labels d) !! key) <-> is_target d key).
  { intros key. rewrite Htab, <- (elem_of_dom (D := gset (option Z))).
    rewrite assign_labels_from_dom, dom_empty_L, (left_id_L ∅ (∪)).
    rewrite elem_of_list_to_set, elem_of_targets. unfold is_target. split.
    - intros (i & Hi & Hty & Hf). apply list_elem_of_lookup in Hi as [k Hk].
      exists k, i. destruct (init_instruction _ _ _ _ _ _ Hd Hk)
        as (Hw & Ha & Hdec).
      split; [done|]. split; [done|]. split; [done|]. split; [done|].
      rewrite <- Hf. by eapply decode_word_address_operand.
    - intros (k & i & Hk & _ & Hty & Hf & _). exists i.
      split; [|done]. apply list_elem_of_lookup. eauto. }
  split; [exact Hiff|]. split; [|split; [|split]].
  - intros key Hkey. apply Hiff in Hkey.
    destruct Hkey as (k & i & _ & _ & _ & _ & ->). eexists. split; [done|].
    change (Z.land (Instruction.word i) 0x7FF)
      with (Z.land (Instruction.word i) (Z.ones 11)).
    rewrite Z.land_ones by lia.
    pose proof (Z.mod_pos_bound (Instruction.word i) (2 ^ 11)). lia.
  - intros ->. by rewrite Htab.
  - intros ->. done.
  - intros key Hkey. apply Hiff. destruct labels.
    + by rewrite Htab, <- Hl.
    + rewrite Hl in Hkey. rewrite lookup_empty in Hkey. by destruct Hkey.
Qed.

Lemma label_keys_are_targets_witness :
  (forall key : option Z,
     is_Some (_labels (_assign_labels nop_call) !! key)
     <-> is_target nop_call key) /\
  (forall key : option Z,
     is_Some (_labels (_assign_labels nop_call) !! key) ->
     exists a : Z, key = Some a /\ (0 <= a <= 0x7FF)%Z) /\
  (true = true -> _labels nop_call = _labels (_assign_labels nop_call)) /\
  (true = false -> _labels nop_call = ∅) /\
  (forall key : option Z,
     is_Some (_labels nop_call !! key) -> is_target nop_call key).
Proof.
  apply (label_keys_are_targets nop_call_fs "rom.bin" true).
  vm_compute. reflexivity.
Defined.

(** ** The formatter never fails on a decoded program *)

Lemma get_data_address_range w :
  (0 <= Instruction.get_data_address w <= 0xFF)%Z.
Proof.
  unfold Instruction.get_data_address.
  change 0x7F%Z with (Z.ones 7). rewrite Z.land_ones by lia.
  pose proof (Z.mod_pos_bound w (2 ^ 7)).
  destruct (_ =? 0)%Z; lia.
Qed.

Lemma lookup_memory_location_returns location :
  (0 <= location)%Z -> returns (_lookup_memory_location location).
Proof.
  intros H. unfold _lookup_memory_location.
  destruct (Z.ltb_spec location 0); [lia|].
  destruct (negb _); by eexists.
Qed.

Lemma format_instruction_returns self a w i :
  in_code_range a -> _decode_word a w = Ok i ->
  (Instruction.type i = ADDRESS -> _has_labels self = true ->
   is_Some (_labels self !! Instruction.first i)) ->
  forall address, returns (_format_instruction self address i).
Proof.
  intros Ha Hdec Hlab address. unfold _format_instruction.
  destruct (decode_word_shape _ _ _ Ha Hdec)
    as [(f & n & Hn & Hf & ->)| ->]; cbn [Instruction.type Instruction.name
      Instruction.first Instruction.second Instruction.word] in *.
  - destruct f; cbn [operands fst snd operand bind] in *;
      try (destruct (lookup_memory_location_returns
                       (Instruction.get_data_address w)) as [t ->];
           [apply get_data_address_range|]);
      cbn [bind]; try (by eexists); try done.
    destruct (_has_labels self); [|by eexists].
    destruct (Hlab eq_refl eq_refl) as [l ->]. by eexists.
  - by eexists.
Qed.

(** C10.  With labels enabled, once [__init__] has run the label pass
    the target of every Address-format instruction of the decoded
    sequence is a key of the label table; so the formatter's lookup
    [self._labels[instruction.first]] never raises a missing-key error,
    every instruction is formatted to a line, and [generate_output]
    returns the listing. *)
Theorem address_targets_always_labelled fs path (d : Disassembler.t) :
  Disassembler.init fs path true = Ok d ->
  _has_labels d = true /\
  (forall i, i ∈ _instructions d -> Instruction.type i = ADDRESS ->
     is_Some (_labels d !! Instruction.first i)) /\
  (forall (k : nat) i, _instructions d !! k = Some i ->
     (forall key, _format_instruction d (Z.of_nat k) i <> Raise (KeyError key))
     /\ returns (_format_instruction d (Z.of_nat k) i)) /\
  returns (generate_output d).
Proof.
  intros Hd. destruct (init_Ok _ _ _ _ Hd) as (_ & _ & Hhl & Hl).
  assert (Hkeys : forall i, i ∈ _instructions d ->
            Instruction.type i = ADDRESS ->
            is_Some (_labels d !! Instruction.first i)).
  { intros i Hi Hty. rewrite Hl, <- (elem_of_dom (D := gset (option Z))).
    rewrite assign_labels_from_dom, elem_of_union, elem_of_list_to_set.
    right. apply elem_of_targets. eauto. }
  assert (Hfmt : forall (k : nat) i, _instructions d !! k = Some i ->
            returns (_format_instruction d (Z.of_nat k) i)).
  { intros k i Hk.
    destruct (init_instruction _ _ _ _ _ _ Hd Hk) as (_ & Ha & Hdec).
    apply (format_instruction_returns d _ _ i Ha Hdec).
    intros Hty _. apply Hkeys; [|done]. apply list_elem_of_lookup. eauto. }
  split; [done|]. split; [exact Hkeys|]. split.
  - intros k i Hk. split; [|by apply Hfmt].
    destruct (Hfmt k i Hk) as [line ->]. done.
  - unfold generate_output.
    destruct (map_enumerate_returns (_format_instruction d)
                (_instructions d) 0%Z) as [lines ->]; [|by eexists].
    intros k i Hk. rewrite Z.add_0_l. by apply Hfmt.
Qed.

Lemma address_targets_always_labelled_witness :
  _has_labels nop_call = true /\
  (forall i, i ∈ _instructions nop_call -> Instruction.type i = ADDRESS ->
     is_Some (_labels nop_call !! Instruction.first i)) /\
  (forall (k : nat) i, _instructions nop_call !! k = Some i ->
     (forall key,
        _format_instruction nop_call (Z.of_nat k) i <> Raise (KeyError key))
     /\ returns (_format_instruction nop_call (Z.of_nat k) i)) /\
  returns (generate_output nop_call).
Proof.
  apply (address_targets_always_labelled nop_call_fs "rom.bin").
  vm_compute. reflexivity.
Defined.

(** C5.  The two-word file 0x0000, 0x2000, loaded and disassembled with
    labels enabled, gives a listing that opens with a blank line, the
    line "label0000:" and another blank line, immediately followed by
    the line of address 0 (the NOP); the CALL at address 1 prints its
    operand as "label0000". *)
Theorem nop_call_listing :
  Disassembler.init nop_call_fs "rom.bin" true = Ok nop_call /\
  _format_instruction nop_call 0 (nop 0)
  = Ok (Py.nl ++ "label0000:" ++ Py.nl ++ Py.nl
        ++ "0000" ++ Py.tab ++ "0000" ++ Py.tab ++ "NOP" ++ Py.nl) /\
  _format_instruction nop_call 1 (call0 1)
  = Ok ("0001" ++ Py.tab ++ "2000" ++ Py.tab ++ "CALL" ++ Py.tab
        ++ "label0000" ++ Py.nl) /\
  generate_output nop_call
  = Ok (Py.nl ++ "label0000:" ++ Py.nl ++ Py.nl
        ++ "0000" ++ Py.tab ++ "0000" ++ Py.tab ++ "NOP" ++ Py.nl
        ++ "0001" ++ Py.tab ++ "2000" ++ Py.tab ++ "CALL" ++ Py.tab
        ++ "label0000" ++ Py.nl).
Proof. repeat split; vm_compute; reflexivity. Qed.

(** ** The memory map *)

Lemma memory_map_names (k : nat) n :
  _MEMORY_MAP !! k = Some (Some n) -> Py.truthy (Some n) = true.
Proof.
  assert (H : Forall (fun o : option string =>
                        forall n, o = Some n -> Py.truthy (Some n) = true)
                _MEMORY_MAP).
  { unfold _MEMORY_MAP. repeat constructor; by intros ? [= <-]. }
  intros Hk. rewrite Forall_lookup in H. by apply (H k _ Hk).
Qed.

(** C7.  [_lookup_memory_location] renders 0x00 as IAR0, 0x10 as
    [010h] and 0x60 as [060h]; for every location of the data space
    (0 to 0xFF, the range of [get_data_address]), a location the Memory
    Map names renders as that name, and any other renders as "[0", two
    upper-case hexadecimal digits that spell the location, and "h]". *)
Theorem lookup_memory_location_rendering (location : Z) :
  (0 <= location <= 0xFF)%Z ->
  _lookup_memory_location 0x00 = Ok "IAR0" /\
  _lookup_memory_location 0x10 = Ok "[010h]" /\
  _lookup_memory_location 0x60 = Ok "[060h]" /\
  (forall w, 0 <= Instruction.get_data_address w <= 0xFF)%Z /\
  match memory_name location with
  | Some n => _lookup_memory_location location = Ok n
  | None =>
      exists d1 d0, is_hex_digit d1 /\ is_hex_digit d0 /\
        location = (16 * d1 + d0)%Z /\
        _lookup_memory_location location = Ok ("[0" ++ hex2 d1 d0 ++ "h]")
  end.
Proof.
  intros Hloc. split; [reflexivity|]. split; [reflexivity|].
  split; [reflexivity|]. split; [apply get_data_address_range|].
  unfold memory_name, _lookup_memory_location.
  destruct (Z.ltb_spec location 0); [lia|].
  destruct (_MEMORY_MAP !! Z.to_nat location) as [[n|]|] eqn:Hn.
  - pose proof (lookup_lt_Some _ _ _ Hn).
    destruct (Z.ltb_spec location (Z.of_nat (length _MEMORY_MAP))); [|lia].
    cbn [mjoin option_join]. simpl mjoin.
    by rewrite (memory_map_names _ _ Hn).
  - exists (location / 16)%Z, (location mod 16)%Z. unfold is_hex_digit.
    split; [div_lia|]. split; [div_lia|]. split; [div_lia|].
    rewrite fmt_02X_digits by lia.
    by destruct (location <? _)%Z.
  - exists (location / 16)%Z, (location mod 16)%Z. unfold is_hex_digit.
    split; [div_lia|]. split; [div_lia|]. split; [div_lia|].
    rewrite fmt_02X_digits by lia.
    by destruct (location <? _)%Z.
Qed.

Lemma lookup_memory_location_rendering_witness :
  _lookup_memory_location 0x00 = Ok "IAR0" /\
  _lookup_memory_location 0x10 = Ok "[010h]" /\
  _lookup_memory_location 0x60 = Ok "[060h]" /\
  (forall w, 0 <= Instruction.get_data_address w <= 0xFF)%Z /\
  match memory_name 0xC5 with
  | Some n => _lookup_memory_location 0xC5 = Ok n
  | None =>
      exists d1 d0, is_hex_digit d1 /\ is_hex_digit d0 /\
        0xC5%Z = (16 * d1 + d0)%Z /\
        _lookup_memory_location 0xC5 = Ok ("[0" ++ hex2 d1 d0 ++ "h]")
  end.
Proof. apply (lookup_memory_location_rendering 0xC5). lia. Defined.

(** C9, as the code has it.  [_MEMORY_MAP] has 0x61 entries, for the
    addresses 0x00 to 0x60: index 0x60 is inside the table (an unnamed
    entry), and the entries after the 20H row sit one place further
    than the row comments say (TKTMR, fourth in the 40H row, is at index
    0x44 and index 0x43 is unnamed). *)
Theorem memory_map_has_0x61_entries :
  length _MEMORY_MAP = 0x61%nat /\
  _MEMORY_MAP !! 0x60%nat = Some None /\
  _MEMORY_MAP !! 0x61%nat = None /\
  _MEMORY_MAP !! 0x43%nat = Some None /\
  _MEMORY_MAP !! 0x44%nat = Some (Some "TKTMR").
Proof. repeat split. Qed.

(** ** The loader *)

Lemma load_binary_file_words fs path content :
  fs path = Some content ->
  (0 < length content)%nat ->
  (Z.of_nat (length content) mod 2 = 0)%Z ->
  (Z.of_nat (length content) <= CODE_FILE_MAX_SIZE)%Z ->
  _load_binary_file fs path = Ok (unpack_le16 content).
Proof.
  unfold _load_binary_file, CODE_FILE_MAX_SIZE. intros -> Hpos Heven Hmax.
  destruct (Z.eqb_spec (Z.of_nat (length content)) 0); [lia|].
  destruct (Z.eqb_spec (Z.of_nat (length content) mod 2) 1); [lia|].
  destruct (Z.gtb_spec (Z.of_nat (length content)) 4096); [lia|].
  rewrite Nat2Z.id, firstn_all. by rewrite Z.eqb_refl.
Qed.

(** C6.  Loading a file of [size] bytes raises an exception with a
    message that names the fault when [size] is zero, odd, or above
    0x1000, and then [__init__] raises it too, before any word is
    decoded; so files of 0, 3 and 0x1002 bytes are rejected.  Otherwise
    loading returns exactly [size / 2] words, word [k] being bytes [2k]
    and [2k+1] in little-endian order, word 0 first. *)
Theorem load_binary_file_contract fs path (content : list Byte.byte) :
  fs path = Some content ->
  let size := Z.of_nat (length content) in
  (size = 0%Z ->
   _load_binary_file fs path
   = Raise (Exception (path ++ " does not contain any code"))) /\
  (size mod 2 = 1 ->
   _load_binary_file fs path
   = Raise (Exception (path ++ " is not word-aligned")))%Z /\
  (size mod 2 = 0 -> size > 0x1000 ->
   _load_binary_file fs path
   = Raise (Exception (path ++ " is too big to fit in the MCU memory")))%Z /\
  (size = 0 \/ size = 3 \/ size = 0x1002 -> raises (_load_binary_file fs path))%Z /\
  (forall e labels, _load_binary_file fs path = Raise e ->
     Disassembler.init fs path labels = Raise e) /\
  (0 < size -> size mod 2 = 0 -> size <= 0x1000 ->
   exists words,
     _load_binary_file fs path = Ok words /\
     Z.of_nat (length words) = size / 2 /\
     forall (k : nat) b0 b1,
       content !! (2 * k)%nat = Some b0 ->
       content !! (2 * k + 1)%nat = Some b1 ->
       words !! k = Some (byte_val b0 + 256 * byte_val b1))%Z.
Proof.
  intros Hfs size.
  assert (H0 : size = 0%Z -> _load_binary_file fs path
            = Raise (Exception (path ++ " does not contain any code"))).
  { unfold _load_binary_file. rewrite Hfs. fold size. by intros ->. }
  assert (H1 : (size mod 2 = 1)%Z -> _load_binary_file fs path
            = Raise (Exception (path ++ " is not word-aligned"))).
  { unfold _load_binary_file. rewrite Hfs. fold size. intros H.
    destruct (Z.eqb_spec size 0) as [E|_]; [rewrite E in H; done|].
    by rewrite H. }
  assert (H2 : (size mod 2 = 0)%Z -> (size > 0x1000)%Z ->
            _load_binary_file fs path
            = Raise (Exception
                       (path ++ " is too big to fit in the MCU memory"))).
  { unfold _load_binary_file, CODE_FILE_MAX_SIZE. rewrite Hfs. fold size.
    intros H Hbig.
    destruct (Z.eqb_spec size 0); [lia|]. rewrite H. simpl.
    destruct (Z.gtb_spec size 4096); [done|lia]. }
  split; [exact H0|]. split; [exact H1|]. split; [exact H2|]. split; [|split].
  - intros [E|[E|E]].
    + rewrite (H0 E). by eexists.
    + rewrite H1; [by eexists|]. by rewrite E.
    + rewrite H2; [by eexists| |lia]. by rewrite E.
  - intros e labels He. unfold Disassembler.init. by rewrite He.
  - intros Hpos Heven Hmax. exists (unpack_le16 content).
    split; [apply load_binary_file_words; [done|..];
            unfold CODE_FILE_MAX_SIZE; subst size; lia|].
    split.
    + rewrite (unpack_le16_length content (Z.to_nat (size / 2)));
        subst size; zify; div_lia.
    + intros k b0 b1. apply unpack_le16_lookup.
Qed.

Lemma load_binary_file_contract_witness :
  raises (_load_binary_file
            (fun _ => Some [Byte.x01; Byte.x02; Byte.x03]) "odd.bin") /\
  exists words,
    _load_binary_file nop_call_fs "rom.bin" = Ok words /\
    Z.of_nat (length words) = (Z.of_nat (length nop_call_bytes) / 2)%Z /\
    forall (k : nat) b0 b1,
      nop_call_bytes !! (2 * k)%nat = Some b0 ->
      nop_call_bytes !! (2 * k + 1)%nat = Some b1 ->
      words !! k = Some (byte_val b0 + 256 * byte_val b1)%Z.
Proof.
  split.
  - apply (load_binary_file_contract
             (fun _ => Some [Byte.x01; Byte.x02; Byte.x03]) "odd.bin"
             [Byte.x01; Byte.x02; Byte.x03] eq_refl).
    right. left. reflexivity.
  - apply (load_binary_file_contract nop_call_fs "rom.bin" nop_call_bytes
             eq_refl); [reflexivity|reflexivity|].
    vm_compute. discriminate.
Defined.

(** * Further properties *)

(** ** The Instruction constructor *)


Lemma lstrip_nonempty s : Py.lstrip s <> "" -> s <> "".
Proof. by destruct s. Qed.

Lemma rev_string_nonempty s : forall acc,
  Py.rev_string s acc = "" -> s = "" /\ acc = "".
Proof.
  induction s as [|c s IH]; intros acc H; simpl in H; [done|].
  by destruct (IH _ H).
Qed.

Lemma strip_nonempty s : Py.strip s <> "" -> s <> "".
Proof.
  unfold Py.strip. intros H ->. apply H. reflexivity.
Qed.







(** ** Decoded instructions *)

Lemma land_ones_range w n :
  (0 <= n)%Z -> (0 <= Z.land w (Z.ones n) <= Z.ones n)%Z.
Proof.
  intros Hn. rewrite Z.land_ones, Z.ones_equiv by done.
  pose proof (Z.pow_pos_nonneg 2 n).
  pose proof (Z.mod_pos_bound w (2 ^ n)). lia.
Qed.

Lemma get_bit_range w : (0 <= Instruction.get_bit w <= 7)%Z.
Proof. exact (land_ones_range (Z.shiftr w 7) 3 ltac:(lia)). Qed.

(** X2.  In every instruction the decoder returns, the operands follow
    the format: the second operand is present exactly for Bit, the first
    is absent exactly for Special and Invalid, the mnemonic is absent
    exactly for Invalid; a first operand is within [0, 0x7FF] for Address
    and within [0, 0xFF] for every other format, and a bit index is
    within [0, 7].  This holds for every integer word. *)
Theorem decoded_operands_follow_format a w (i : Instruction.t) :
  in_code_range a -> _decode_word a w = Ok i ->
  (is_Some (Instruction.second i) <-> Instruction.type i = BIT) /\
  (Instruction.first i = None <->
   Instruction.type i = SPECIAL \/ Instruction.type i = INVALID) /\
  (Instruction.name i = None <-> Instruction.type i = INVALID) /\
  (forall v, Instruction.first i = Some v ->
     (0 <= v <= if decide (Instruction.type i = ADDRESS)
                then 0x7FF else 0xFF)%Z) /\
  (forall b, Instruction.second i = Some b -> (0 <= b <= 7)%Z).
Proof.
  intros Ha Hdec.
  pose proof (get_data_address_range w) as Hloc.
  pose proof (get_bit_range w) as Hbit.
  pose proof (land_ones_range w 8 ltac:(lia)) as Hlit.
  pose proof (land_ones_range w 11 ltac:(lia)) as Hadr.
  change (Z.ones 8) with 0xFF%Z in Hlit.
  change (Z.ones 11) with 0x7FF%Z in Hadr.
  destruct (decode_word_shape _ _ _ Ha Hdec) as [(f & n & _ & Hf & ->)| ->].
  - destruct f; try (by destruct Hf);
      cbn [operands fst snd Instruction.first Instruction.second
           Instruction.type Instruction.name];
      (split; [split; [intros [? H]; first [done | discriminate H]
                      |intros H; first [discriminate H | by eexists]]|]);
      (split; [split; [intros H; first [by left | discriminate H]
                      |intros [H|H]; first [done | discriminate H]]|]);
      (split; [split; intros H; discriminate H|]);
      (split; [intros v H; first [discriminate H
                                 |injection H as <-; cbn; assumption]
              |intros b H; first [discriminate H
                                 |injection H as <-; assumption]]).
  - cbn. split; [split; [by intros [? ?]|done]|].
    split; [split; auto|]. done.
Qed.

Lemma decoded_operands_follow_format_witness :
  (is_Some (Instruction.second (call0 1)) <->
   Instruction.type (call0 1) = BIT) /\
  (Instruction.first (call0 1) = None <->
   Instruction.type (call0 1) = SPECIAL \/
   Instruction.type (call0 1) = INVALID) /\
  (Instruction.name (call0 1) = None <->
   Instruction.type (call0 1) = INVALID) /\
  (forall v, Instruction.first (call0 1) = Some v ->
     (0 <= v <= if decide (Instruction.type (call0 1) = ADDRESS)
                then 0x7FF else 0xFF)%Z) /\
  (forall b, Instruction.second (call0 1) = Some b -> (0 <= b <= 7)%Z).
Proof.
  apply (decoded_operands_follow_format 1 0x2000).
  - unfold in_code_range, CODE_ADDRESS_START, CODE_ADDRESS_END. lia.
  - vm_compute. reflexivity.
Defined.

(** X3.  Decoding depends on the address only through the address field:
    at two legal addresses the same word decodes to instructions with the
    same word, format, mnemonic and operands. *)
Theorem decode_word_address_independent a a' w (i : Instruction.t) :
  in_code_range a -> in_code_range a' -> _decode_word a w = Ok i ->
  _decode_word a' w
  = Ok (Instruction.mk a' (Instruction.word i) (Instruction.first i)
          (Instruction.second i) (Instruction.type i) (Instruction.name i)).
Proof.
  intros Ha Ha' Hdec.
  destruct (first_match pattern_groups w) as [[f n]|] eqn:Hm.
  - destruct (decode_word_matched a w f n Ha Hm) as (_ & _ & Hd).
    destruct (decode_word_matched a' w f n Ha' Hm) as (_ & _ & ->).
    rewrite Hd in Hdec. by injection Hdec as <-.
  - rewrite (decode_word_unmatched a' w Ha' Hm).
    rewrite (decode_word_unmatched a w Ha Hm) in Hdec.
    by injection Hdec as <-.
Qed.

Lemma decode_word_address_independent_witness :
  _decode_word 0x07FF 0x2000
  = Ok (Instruction.mk 0x07FF (Instruction.word (call0 1))
          (Instruction.first (call0 1)) (Instruction.second (call0 1))
          (Instruction.type (call0 1)) (Instruction.name (call0 1))).
Proof.
  apply (decode_word_address_independent 1 0x07FF 0x2000 (call0 1)).
  - unfold in_code_range, CODE_ADDRESS_START, CODE_ADDRESS_END. lia.
  - unfold in_code_range, CODE_ADDRESS_START, CODE_ADDRESS_END. lia.
  - vm_compute. reflexivity.
Defined.

(** ** The whole run *)

Lemma init_of_words fs path labels ws :
  _load_binary_file fs path = Ok ws ->
  exists d, Disassembler.init fs path labels = Ok d.
Proof.
  intros Hload. unfold Disassembler.init. rewrite Hload. simpl.
  apply load_binary_file_length in Hload.
  destruct (map_enumerate_returns _decode_word ws 0%Z) as [ins ->].
  - intros k w Hk. rewrite Z.add_0_l. apply lookup_lt_Some in Hk.
    assert (Ha : in_code_range (Z.of_nat k))
      by (unfold in_code_range, CODE_ADDRESS_START, CODE_ADDRESS_END; lia).
    destruct (first_match pattern_groups w) as [[f n]|] eqn:Hm.
    + destruct (decode_word_matched _ w f n Ha Hm) as (_ & _ & ->).
      by eexists.
    + rewrite (decode_word_unmatched _ w Ha Hm). by eexists.
  - simpl. destruct labels; by eexists.
Qed.

Lemma generate_output_returns fs path labels d :
  Disassembler.init fs path labels = Ok d -> returns (generate_output d).
Proof.
  intros Hd. destruct (init_Ok _ _ _ _ Hd) as (_ & _ & Hhl & Hl).
  unfold generate_output.
  destruct (map_enumerate_returns (_format_instruction d)
              (_instructions d) 0%Z) as [lines ->]; [|by eexists].
  intros k i Hk. rewrite Z.add_0_l.
  destruct (init_instruction _ _ _ _ _ _ Hd Hk) as (_ & Ha & Hdec).
  apply (format_instruction_returns d _ _ i Ha Hdec).
  intros Hty Hen. rewrite <- Hhl, Hen in Hl.
  rewrite Hl, <- (elem_of_dom (D := gset (option Z))).
  rewrite assign_labels_from_dom, elem_of_union, elem_of_list_to_set.
  right. apply elem_of_targets. exists i. split; [|done].
  apply list_elem_of_lookup. eauto.
Qed.

(** X4.  Every file the loader accepts (not empty, of even size, at most
    0x1000 bytes) is disassembled without an exception, with labels
    enabled or disabled: [__init__] returns an object holding the
    file's words and one instruction per word, each at the address of
    its position and carrying that word, and [generate_output] returns
    the listing. *)
Theorem disassembly_never_fails fs path (content : list Byte.byte)
    (labels : bool) :
  fs path = Some content ->
  (0 < length content)%nat ->
  (Z.of_nat (length content) mod 2 = 0)%Z ->
  (Z.of_nat (length content) <= 0x1000)%Z ->
  exists d text,
    Disassembler.init fs path labels = Ok d /\
    _words d = unpack_le16 content /\
    length (_instructions d) = length (_words d) /\
    (forall (k : nat) i, _instructions d !! k = Some i ->
       Instruction.address i = Z.of_nat k /\
       _words d !! k = Some (Instruction.word i)) /\
    generate_output d = Ok text.
Proof.
  intros Hfs Hpos Heven Hmax.
  pose proof (load_binary_file_words fs path content Hfs Hpos Heven Hmax)
    as Hload.
  destruct (init_of_words fs path labels _ Hload) as [d Hd].
  destruct (generate_output_returns _ _ _ _ Hd) as [text Htext].
  destruct (init_Ok _ _ _ _ Hd) as (Hload' & Hdec & _ & _).
  exists d, text. split; [done|].
  split; [congruence|].
  split; [by destruct (map_enumerate_Ok _ _ _ _ Hdec)|].
  split; [|done]. intros k i Hk.
  destruct (init_instruction _ _ _ _ _ _ Hd Hk) as (Hw & Ha & Hd').
  split; [|done].
  destruct (decode_word_shape _ _ _ Ha Hd') as [(f & n & _ & _ & Hi)|Hi];
    by rewrite Hi.
Qed.

Lemma disassembly_never_fails_witness :
  exists d text,
    Disassembler.init nop_call_fs "rom.bin" false = Ok d /\
    _words d = unpack_le16 nop_call_bytes /\
    length (_instructions d) = length (_words d) /\
    (forall (k : nat) i, _instructions d !! k = Some i ->
       Instruction.address i = Z.of_nat k /\
       _words d !! k = Some (Instruction.word i)) /\
    generate_output d = Ok text.
Proof.
  apply (disassembly_never_fails nop_call_fs "rom.bin" nop_call_bytes false).
  - reflexivity.
  - simpl. lia.
  - reflexivity.
  - simpl. lia.
Defined.

(** ** The words of a file *)

Lemma byte_val_range b : (0 <= byte_val b <= 0xFF)%Z.
Proof. unfold byte_val. pose proof (Byte.to_N_bounded b). lia. Qed.

Lemma unpack_le16_inv bs (n : nat) :
  length bs = (2 * n)%nat ->
  forall (k : nat) w, unpack_le16 bs !! k = Some w ->
    exists b0 b1, bs !! (2 * k)%nat = Some b0 /\
      bs !! (2 * k + 1)%nat = Some b1 /\
      w = (byte_val b0 + 256 * byte_val b1)%Z.
Proof.
  intros Hlen k w Hk. pose proof (lookup_lt_Some _ _ _ Hk) as Hlt.
  rewrite (unpack_le16_length bs n Hlen) in Hlt.
  destruct (lookup_lt_is_Some_2 bs (2 * k)) as [b0 Hb0]; [lia|].
  destruct (lookup_lt_is_Some_2 bs (2 * k + 1)) as [b1 Hb1]; [lia|].
  exists b0, b1. split; [done|]. split; [done|].
  rewrite (unpack_le16_lookup bs k b0 b1 Hb0 Hb1) in Hk. congruence.
Qed.

(** X5.  Whatever the loader returns came from a regular file of twice
    as many bytes, and every word is an unsigned 16-bit value whose low
    byte is the file's byte at twice its index and whose high byte is
    the next one; the number of words is between 1 and 0x800, so every
    word index is a legal code address. *)
Theorem loaded_words_are_16_bit fs path (ws : list Z) :
  _load_binary_file fs path = Ok ws ->
  exists content,
    fs path = Some content /\
    length content = (2 * length ws)%nat /\
    (0 < length ws <= 0x800)%nat /\
    forall (k : nat) w, ws !! k = Some w ->
      (0 <= w <= 0xFFFF)%Z /\ in_code_range (Z.of_nat k) /\
      exists b0 b1,
        content !! (2 * k)%nat = Some b0 /\
        content !! (2 * k + 1)%nat = Some b1 /\
        byte_val b0 = (w mod 256)%Z /\ byte_val b1 = (w / 256)%Z.
Proof.
  intros Hload. pose proof (load_binary_file_length _ _ _ Hload) as Hlen.
  revert Hload. unfold _load_binary_file.
  destruct (fs path) as [content|] eqn:Hfs; [|done].
  unfold CODE_FILE_MAX_SIZE.
  destruct (Z.eqb_spec (Z.of_nat (length content)) 0); [done|].
  destruct (Z.eqb_spec (Z.of_nat (length content) mod 2) 1); [done|].
  destruct (Z.gtb_spec (Z.of_nat (length content)) 4096); [done|].
  rewrite Nat2Z.id, firstn_all. rewrite Z.eqb_refl. simpl negb. cbv iota.
  intros [= <-]. exists content. split; [done|].
  assert (Hc : length content
               = (2 * Z.to_nat (Z.of_nat (length content) / 2))%nat)
    by (zify; div_lia).
  pose proof (unpack_le16_length content _ Hc) as Hu.
  split; [lia|]. split; [done|]. intros k w Hk.
  destruct (unpack_le16_inv content _ Hc k w Hk) as (b0 & b1 & H0 & H1 & ->).
  pose proof (byte_val_range b0). pose proof (byte_val_range b1).
  split; [lia|]. split.
  - apply lookup_lt_Some in Hk.
    unfold in_code_range, CODE_ADDRESS_START, CODE_ADDRESS_END. lia.
  - exists b0, b1. split; [done|]. split; [done|]. split; div_lia.
Qed.

Lemma loaded_words_are_16_bit_witness :
  exists content,
    nop_call_fs "rom.bin" = Some content /\
    length content = (2 * length [0x0000; 0x2000]%Z)%nat /\
    (0 < length [0x0000; 0x2000]%Z <= 0x800)%nat /\
    forall (k : nat) w, [0x0000; 0x2000]%Z !! k = Some w ->
      (0 <= w <= 0xFFFF)%Z /\ in_code_range (Z.of_nat k) /\
      exists b0 b1,
        content !! (2 * k)%nat = Some b0 /\
        content !! (2 * k + 1)%nat = Some b1 /\
        byte_val b0 = (w mod 256)%Z /\ byte_val b1 = (w / 256)%Z.
Proof.
  apply (loaded_words_are_16_bit nop_call_fs "rom.bin").
  vm_compute. reflexivity.
Defined.

(** ** The word space, by enumeration *)

Lemma all_from_spec n : forall z P,
  all_from n z P = true ->
  forall w, (z <= w < z + Z.of_nat n)%Z -> P w = true.
Proof.
  induction n as [|n IH]; intros z P H w Hw; [lia|].
  simpl in H. apply andb_true_iff in H as [Hz H].
  destruct (Z.eq_dec w z) as [->|Hne]; [done|].
  apply (IH (z + 1)%Z P H). lia.
Qed.

Lemma every_word (P : Z -> bool) :
  all_from (256 * 256) 0%Z P = true ->
  forall w, (0 <= w <= 0xFFFF)%Z -> P w = true.
Proof.
  intros H w Hw. apply (all_from_spec _ _ _ H).
  change (Z.of_nat (256 * 256)) with 65536%Z. lia.
Qed.

Lemma decoded_format a w i :
  in_code_range a -> _decode_word a w = Ok i ->
  Instruction.type i = format_of w.
Proof.
  intros Ha Hdec. unfold format_of.
  destruct (first_match pattern_groups w) as [[f n]|] eqn:Hm.
  - destruct (decode_word_matched a w f n Ha Hm) as (_ & _ & Hd).
    rewrite Hd in Hdec. by injection Hdec as <-.
  - rewrite (decode_word_unmatched a w Ha Hm) in Hdec.
    by injection Hdec as <-.
Qed.

Lemma between_spec lo w hi : between lo w hi = true <-> (lo <= w < hi)%Z.
Proof. unfold between. rewrite andb_true_iff, Z.leb_le, Z.ltb_lt. done. Qed.

Lemma eqb_decide_iff (P : Prop) `{Decision P} (b : bool) :
  Bool.eqb (bool_decide P) b = true -> (P <-> b = true).
Proof. intros Hb%Bool.eqb_prop. by rewrite <- Hb, bool_decide_eq_true. Qed.

(** X6.  The formats partition the 16-bit word space by ranges: a word
    decodes as Special exactly when it is at most 5, as Address exactly
    when it lies in 0x2000..0x2FFF, as Bit exactly when it lies in
    0x3000..0x3FFF or 0x7000..0x7FFF, and every word with bit 15 set
    (0x8000 and above) is an invalid opcode. *)
Theorem format_word_ranges a w (i : Instruction.t) :
  in_code_range a -> (0 <= w <= 0xFFFF)%Z -> _decode_word a w = Ok i ->
  (Instruction.type i = SPECIAL <-> (w <= 5)%Z) /\
  (Instruction.type i = ADDRESS <-> (0x2000 <= w < 0x3000)%Z) /\
  (Instruction.type i = BIT <->
   (0x3000 <= w < 0x4000)%Z \/ (0x7000 <= w < 0x8000)%Z) /\
  ((0x8000 <= w)%Z -> Instruction.type i = INVALID).
Proof.
  intros Ha Hw Hdec. rewrite (decoded_format a w i Ha Hdec).
  assert (Hall : all_from (256 * 256) 0%Z word_class_ok = true)
    by (vm_compute; reflexivity).
  pose proof (every_word _ Hall w Hw) as H. clear Hall.
  unfold word_class_ok in H.
  apply andb_true_iff in H as [H H4]. apply andb_true_iff in H as [H H3].
  apply andb_true_iff in H as [H1 H2].
  apply eqb_decide_iff in H1, H2, H3.
  rewrite H1, H2, H3, Z.leb_le, orb_true_iff, !between_spec.
  split; [done|]. split; [done|]. split; [done|].
  intros Hhi. apply orb_true_iff in H4 as [H4|H4].
  - apply negb_true_iff, Z.leb_gt in H4. lia.
  - by apply bool_decide_eq_true in H4.
Qed.

Lemma format_word_ranges_witness :
  (Instruction.type (call0 1) = SPECIAL <-> (0x2000 <= 5)%Z) /\
  (Instruction.type (call0 1) = ADDRESS <-> (0x2000 <= 0x2000 < 0x3000)%Z) /\
  (Instruction.type (call0 1) = BIT <->
   (0x3000 <= 0x2000 < 0x4000)%Z \/ (0x7000 <= 0x2000 < 0x8000)%Z) /\
  ((0x8000 <= 0x2000)%Z -> Instruction.type (call0 1) = INVALID).
Proof.
  apply (format_word_ranges 1 0x2000 (call0 1)).
  - unfold in_code_range, CODE_ADDRESS_START, CODE_ADDRESS_END. lia.
  - lia.
  - vm_compute. reflexivity.
Defined.

(** X7.  An Address or Bit word is its table key plus its operand
    fields: for an Address instruction the word less the target is the
    key of its mnemonic in [_ADDRESS_OPCODES]; for a Bit instruction the
    word less the bank flag (bit 14), the bit index (bits 9..7) and the
    low seven address bits is the key of its mnemonic in [_BIT_OPCODES].
    So these two formats lose nothing of a 16-bit word. *)
Theorem address_and_bit_words_split a w (i : Instruction.t) :
  in_code_range a -> (0 <= w <= 0xFFFF)%Z -> _decode_word a w = Ok i ->
  (Instruction.type i = ADDRESS ->
   exists n t, Instruction.name i = Some n /\
     Instruction.first i = Some t /\
     _ADDRESS_OPCODES !! (w - t)%Z = Some n) /\
  (Instruction.type i = BIT ->
   exists n loc b, Instruction.name i = Some n /\
     Instruction.first i = Some loc /\ Instruction.second i = Some b /\
     _BIT_OPCODES !! bit_key w loc b = Some n).
Proof.
  intros Ha Hw Hdec.
  assert (Hall : all_from (256 * 256) 0%Z operand_fields_ok = true)
    by (vm_compute; reflexivity).
  pose proof (every_word _ Hall w Hw) as H. clear Hall.
  unfold operand_fields_ok in H.
  destruct (first_match pattern_groups w) as [[f n]|] eqn:Hm.
  - destruct (decode_word_matched a w f n Ha Hm) as (_ & _ & Hd).
    rewrite Hd in Hdec. injection Hdec as <-.
    cbn [Instruction.type Instruction.name Instruction.first
         Instruction.second].
    split; intros ->; cbn [operands fst snd];
      apply bool_decide_eq_true in H; eauto 10.
  - rewrite (decode_word_unmatched a w Ha Hm) in Hdec.
    injection Hdec as <-. split; intros [=].
Qed.

Lemma address_and_bit_words_split_witness :
  (Instruction.type (call0 1) = ADDRESS ->
   exists n t, Instruction.name (call0 1) = Some n /\
     Instruction.first (call0 1) = Some t /\
     _ADDRESS_OPCODES !! (0x2000 - t)%Z = Some n) /\
  (Instruction.type (call0 1) = BIT ->
   exists n loc b, Instruction.name (call0 1) = Some n /\
     Instruction.first (call0 1) = Some loc /\
     Instruction.second (call0 1) = Some b /\
     _BIT_OPCODES !! bit_key 0x2000 loc b = Some n).
Proof.
  apply (address_and_bit_words_split 1 0x2000 (call0 1)).
  - unfold in_code_range, CODE_ADDRESS_START, CODE_ADDRESS_END. lia.
  - lia.
  - vm_compute. reflexivity.
Defined.

(** ** Every table entry can be decoded *)

Lemma table_reaches (f : Format) (table : gmap Z string) :
  bool_decide (map_Forall (fun key n => reaches f key n) table) = true ->
  forall a key n, in_code_range a -> table !! key = Some n ->
    _decode_word a key
    = Ok (Instruction.mk a key (operands f key).1 (operands f key).2 f
            (Some n)).
Proof.
  intros H a key n Ha Hk. apply bool_decide_eq_true_1 in H.
  by destruct (decode_word_matched a key f n Ha (H key n Hk)) as (_ & _ & ?).
Qed.

(** X8.  No entry of an opcode table is dead: the decoder, given the key
    of an entry as the word, returns the format of that table (the
    format stored in the entry, for the Other table) and the entry's
    mnemonic.  The single entry of the M2A fallback table is decoded so
    too, by the Other table. *)
Theorem every_table_entry_decodes a key (n : string) :
  in_code_range a ->
  let decoded f :=
    _decode_word a key
    = Ok (Instruction.mk a key (operands f key).1 (operands f key).2 f
            (Some n)) in
  (_SPECIAL_OPCODES !! key = Some n -> decoded SPECIAL) /\
  (_BIT_OPCODES !! key = Some n -> decoded BIT) /\
  (_ADDRESS_OPCODES !! key = Some n -> decoded ADDRESS) /\
  (forall f, _OTHER_OPCODES !! key = Some (f, n) -> decoded f) /\
  (_LITERAL_OPCODES !! key = Some n -> decoded LITERAL) /\
  (_M2A_OPCODES !! key = Some n -> decoded M2A).
Proof.
  intros Ha decoded. subst decoded. cbv beta.
  split; [|split; [|split; [|split; [|split]]]].
  - intros H.
    apply (table_reaches SPECIAL _SPECIAL_OPCODES); [vm_compute; reflexivity|done|done].
  - intros H.
    apply (table_reaches BIT _BIT_OPCODES); [vm_compute; reflexivity|done|done].
  - intros H.
    apply (table_reaches ADDRESS _ADDRESS_OPCODES); [vm_compute; reflexivity|done|done].
  - intros f H.
    assert (Hall : bool_decide (map_Forall
              (fun key (d : Format * string) => reaches d.1 key d.2)
              _OTHER_OPCODES) = true) by (vm_compute; reflexivity).
    apply bool_decide_eq_true_1 in Hall.
    by destruct (decode_word_matched a key f n Ha (Hall key (f, n) H))
      as (_ & _ & ?).
  - intros H.
    apply (table_reaches LITERAL _LITERAL_OPCODES); [vm_compute; reflexivity|done|done].
  - intros H.
    apply (table_reaches M2A _M2A_OPCODES); [vm_compute; reflexivity|done|done].
Qed.

Lemma every_table_entry_decodes_witness :
  _decode_word 7 0x0F00
  = Ok (Instruction.mk 7 0x0F00 (operands LITERAL 0x0F00).1
          (operands LITERAL 0x0F00).2 LITERAL (Some "MOV")).
Proof.
  assert (Ha : in_code_range 7)
    by (unfold in_code_range, CODE_ADDRESS_START, CODE_ADDRESS_END; lia).
  destruct (every_table_entry_decodes 7 0x0F00 "MOV" Ha)
    as (_ & _ & _ & _ & H & _).
  apply H. vm_compute. reflexivity.
Defined.

(** ** Label names are distinct and consecutive *)

Lemma digit_value_char d :
  (0 <= d < 16)%Z -> digit_value (Py.digit_char d) = d.
Proof.
  intros Hd.
  assert (H : all_from 16 0%Z
                (fun x => (digit_value (Py.digit_char x) =? x)%Z) = true)
    by (vm_compute; reflexivity).
  apply Z.eqb_eq. apply (all_from_spec _ _ _ H). lia.
Qed.

Lemma hex4_inj a3 a2 a1 a0 b3 b2 b1 b0 :
  is_hex_digit a3 -> is_hex_digit a2 -> is_hex_digit a1 -> is_hex_digit a0 ->
  is_hex_digit b3 -> is_hex_digit b2 -> is_hex_digit b1 -> is_hex_digit b0 ->
  hex4 a3 a2 a1 a0 = hex4 b3 b2 b1 b0 ->
  a3 = b3 /\ a2 = b2 /\ a1 = b1 /\ a0 = b0.
Proof.
  unfold is_hex_digit, hex4. intros ? ? ? ? ? ? ? ? [= H3 H2 H1 H0].
  apply (f_equal digit_value) in H3, H2, H1, H0.
  rewrite !digit_value_char in H3, H2, H1, H0 by done. done.
Qed.

Lemma append_cancel_l (p x y : string) : p ++ x = p ++ y -> x = y.
Proof. induction p as [|c p IH]; simpl; [done|]. intros [= H]. auto. Qed.

Lemma label_name_inj i j :
  (0 <= i < 0x10000)%Z -> (0 <= j < 0x10000)%Z ->
  label_name i = label_name j -> i = j.
Proof.
  intros Hi Hj. unfold label_name. rewrite !fmt_04X_digits by done.
  intros H.
  assert (H4 : hex4 (i / 4096) (i / 256 mod 16) (i / 16 mod 16) (i mod 16)
               = hex4 (j / 4096) (j / 256 mod 16) (j / 16 mod 16) (j mod 16))
    by (by apply (append_cancel_l "label")).
  apply hex4_inj in H4 as (H3 & H2 & H1 & H0);
    unfold is_hex_digit; div_lia.
Qed.

Lemma index_fold_names ts : forall idx c,
  foldl key_step (label_name <$> idx, c) ts
  = (label_name <$> (foldl index_step (idx, c) ts).1,
     (foldl index_step (idx, c) ts).2).
Proof.
  induction ts as [|x r IH]; intros idx c; [done|].
  simpl foldl. unfold key_step at 2, index_step at 2 4. cbn [fst snd].
  rewrite lookup_fmap. destruct (idx !! x); simpl; [apply IH|].
  rewrite <- fmap_insert. apply IH.
Qed.

Lemma index_step_numbered st k : numbered st -> numbered (index_step st k).
Proof.
  destruct st as [idx c]. unfold numbered, index_step. cbn [fst snd].
  intros (Hlt & Hinj & Hsur & Hc).
  destruct (idx !! k) eqn:Hk; cbn [fst snd]; [done|].
  split; [|split; [|split]].
  - intros k' j. rewrite lookup_insert. case_decide.
    + intros [= <-]. lia.
    + intros H'. specialize (Hlt _ _ H'). lia.
  - intros k1 k2 j. rewrite !lookup_insert. repeat case_decide; subst.
    + done.
    + intros [= <-] H2. specialize (Hlt _ _ H2). lia.
    + intros H1 [= <-]. specialize (Hlt _ _ H1). lia.
    + apply Hinj.
  - intros j Hj. destruct (Z.eq_dec j c) as [->|Hne].
    + exists k. by rewrite lookup_insert_eq.
    + destruct (Hsur j) as [k' Hk']; [lia|]. exists k'.
      rewrite lookup_insert_ne; [done|]. congruence.
  - rewrite map_size_insert_None by done. lia.
Qed.

Lemma index_fold_numbered ts : forall st,
  numbered st -> numbered (foldl index_step st ts).
Proof.
  induction ts as [|x r IH]; intros st Hst; [done|].
  simpl. by apply IH, index_step_numbered.
Qed.

Lemma index_fold_counter ts : forall st,
  ((foldl index_step st ts).2 <= st.2 + Z.of_nat (length ts))%Z.
Proof.
  induction ts as [|x r IH]; intros st; simpl foldl; [simpl; lia|].
  specialize (IH (index_step st x)).
  assert ((index_step st x).2 <= st.2 + 1)%Z
    by (unfold index_step; destruct (st.1 !! x); cbn [fst snd]; lia).
  simpl length. lia.
Qed.

Lemma targets_length instructions :
  (length (targets instructions) <= length instructions)%nat.
Proof. unfold targets. rewrite length_fmap. apply length_filter. Qed.

(** The label table of a program, as counter values. *)
Lemma labels_numbered instructions :
  exists idx c,
    assign_labels_from ∅ instructions = label_name <$> idx /\
    numbered (idx, c) /\ (c <= Z.of_nat (length instructions))%Z.
Proof.
  exists (foldl index_step (∅, 0%Z) (targets instructions)).1,
    (foldl index_step (∅, 0%Z) (targets instructions)).2.
  split; [|split].
  - rewrite assign_labels_from_targets.
    rewrite <- (fmap_empty label_name) at 1. by rewrite index_fold_names.
  - rewrite <- surjective_pairing. apply index_fold_numbered.
    unfold numbered; cbn [fst snd].
    split; [intros k j; by rewrite lookup_empty|].
    split; [intros k1 k2 j; by rewrite lookup_empty|].
    split; [intros j; lia|]. by rewrite map_size_empty.
  - pose proof (index_fold_counter (targets instructions) (∅, 0%Z)).
    pose proof (targets_length instructions). cbn [fst snd] in *. lia.
Qed.

(** X9.  With labels enabled no two targets share a label: a label name
    belongs to one key of the table only, so a name printed as an
    operand designates one address. *)
Theorem labels_are_distinct fs path (d : Disassembler.t) :
  Disassembler.init fs path true = Ok d ->
  forall k1 k2 l,
    _labels d !! k1 = Some l -> _labels d !! k2 = Some l -> k1 = k2.
Proof.
  intros Hd k1 k2 l. destruct (init_Ok _ _ _ _ Hd) as (Hload & Hdec & _ & Hl).
  apply load_binary_file_length in Hload.
  destruct (map_enumerate_Ok _ _ _ _ Hdec) as [Hlen _].
  destruct (labels_numbered (_instructions d))
    as (idx & c & Hidx & (Hlt & Hinj & _ & _) & Hc).
  cbn [fst snd] in *. rewrite Hl, Hidx, !lookup_fmap.
  destruct (idx !! k1) as [j1|] eqn:H1; [|done].
  destruct (idx !! k2) as [j2|] eqn:H2; [|done].
  cbn [fmap option_fmap option_map]. intros Hl1 Hl2.
  assert (Hj : label_name j1 = label_name j2) by congruence.
  pose proof (Hlt _ _ H1). pose proof (Hlt _ _ H2).
  apply label_name_inj in Hj; [|lia|lia]. subst j2. by eapply Hinj.
Qed.

Lemma labels_are_distinct_witness : Some 0%Z = Some 0%Z.
Proof.
  apply (labels_are_distinct nop_call_fs "rom.bin" nop_call
           ltac:(vm_compute; reflexivity) (Some 0%Z) (Some 0%Z) "label0000");
    vm_compute; reflexivity.
Defined.

(** X10.  With labels enabled the names in use are exactly
    ['label%04X' % j] for [j] from 0 up to the number of labels less
    one, with no gap; there is one label per distinct target and never
    more labels than instructions. *)
Theorem labels_are_consecutive fs path (d : Disassembler.t) :
  Disassembler.init fs path true = Ok d ->
  size (_labels d) = count_distinct (targets (_instructions d)) /\
  (size (_labels d) <= length (_instructions d))%nat /\
  (forall k l, _labels d !! k = Some l ->
     exists j, (0 <= j < Z.of_nat (size (_labels d)))%Z /\ l = label_name j) /\
  (forall j, (0 <= j < Z.of_nat (size (_labels d)))%Z ->
     exists k, _labels d !! k = Some (label_name j)).
Proof.
  intros Hd. destruct (init_Ok _ _ _ _ Hd) as (_ & _ & _ & Hl).
  destruct (labels_numbered (_instructions d))
    as (idx & c & Hidx & (Hlt & _ & Hsur & Hsize) & Hc).
  cbn [fst snd] in *.
  assert (Hs : size (_labels d) = size idx)
    by (by rewrite Hl, Hidx, map_size_fmap).
  split; [|split; [|split]].
  - unfold count_distinct.
    rewrite <- (size_dom (D := gset (option Z)) (_labels d)), Hl.
    by rewrite assign_labels_from_dom, dom_empty_L, (left_id_L ∅ (∪)).
  - lia.
  - intros k l. rewrite Hs, Hl, Hidx, lookup_fmap.
    destruct (idx !! k) as [j|] eqn:Hk; [|done]. intros [= <-].
    exists j. split; [|done]. specialize (Hlt _ _ Hk). lia.
  - intros j Hj. rewrite Hs in Hj. destruct (Hsur j) as [k Hk]; [lia|].
    exists k. by rewrite Hl, Hidx, lookup_fmap, Hk.
Qed.

Lemma labels_are_consecutive_witness :
  size (_labels nop_call) = count_distinct (targets (_instructions nop_call))
  /\ (size (_labels nop_call) <= length (_instructions nop_call))%nat /\
  (forall k l, _labels nop_call !! k = Some l ->
     exists j, (0 <= j < Z.of_nat (size (_labels nop_call)))%Z /\
               l = label_name j) /\
  (forall j, (0 <= j < Z.of_nat (size (_labels nop_call)))%Z ->
     exists k, _labels nop_call !! k = Some (label_name j)).
Proof.
  apply (labels_are_consecutive nop_call_fs "rom.bin").
  vm_compute. reflexivity.
Defined.

(** ** The lines of the listing *)

Lemma unpack_le16_range bs : forall (k : nat) w,
  unpack_le16 bs !! k = Some w -> (0 <= w <= 0xFFFF)%Z.
Proof.
  induction bs as [bs IH] using (induction_ltof1 _ (@length _)).
  unfold ltof in IH. intros k w Hk.
  destruct bs as [|b0 [|b1 r]]; [done|done|].
  simpl in Hk. destruct k as [|k]; simpl in Hk.
  - injection Hk as <-.
    pose proof (byte_val_range b0). pose proof (byte_val_range b1). lia.
  - apply (IH r) in Hk; [done|simpl; lia].
Qed.

Lemma load_binary_file_unpack fs path ws :
  _load_binary_file fs path = Ok ws ->
  exists content, fs path = Some content /\ ws = unpack_le16 content.
Proof.
  unfold _load_binary_file.
  destruct (fs path) as [content|]; [|done].
  destruct (_ =? 0)%Z; [done|]. destruct (_ =? 1)%Z; [done|].
  destruct (_ >? _)%Z; [done|].
  rewrite Nat2Z.id, firstn_all. rewrite Z.eqb_refl. simpl negb. cbv iota.
  intros [= <-]. eauto.
Qed.

(** The address and word of an instruction of the object fit in four
    hexadecimal digits. *)
Lemma init_line_prefix fs path labels d (k : nat) i :
  Disassembler.init fs path labels = Ok d ->
  _instructions d !! k = Some i ->
  (Py.fmt_0X 4 (Z.of_nat k) ++ Py.tab
   ++ Py.fmt_0X 4 (Instruction.word i) ++ Py.tab)
  = line_prefix (Z.of_nat k) (Instruction.word i).
Proof.
  intros Hd Hk. destruct (init_instruction _ _ _ _ _ _ Hd Hk) as (Hw & Ha & _).
  destruct (init_Ok _ _ _ _ Hd) as (Hload & _ & _ & _).
  destruct (load_binary_file_unpack _ _ _ Hload) as (content & _ & Hws).
  rewrite Hws in Hw. apply unpack_le16_range in Hw.
  unfold in_code_range, CODE_ADDRESS_START, CODE_ADDRESS_END in Ha.
  unfold line_prefix. by rewrite !fmt_04X_digits by lia.
Qed.

(** X11.  An invalid opcode is printed as its address and word in four
    hexadecimal digits each, then "; (", the sixteen bits of the word
    from bit 15 down to bit 0, and ") Invalid opcode", with the label
    lines before it when its address has a label. *)
Theorem invalid_opcode_line fs path labels d (k : nat) (i : Instruction.t) :
  Disassembler.init fs path labels = Ok d ->
  _instructions d !! k = Some i ->
  Instruction.type i = INVALID ->
  _format_instruction d (Z.of_nat k) i
  = Ok ((label_header d (Z.of_nat k)
         ++ line_prefix (Z.of_nat k) (Instruction.word i))
        ++ ("; (" ++ binary16 (Instruction.word i) ++ ") Invalid opcode")
        ++ Py.nl).
Proof.
  intros Hd Hk Hty. unfold _format_instruction. rewrite Hty.
  rewrite (init_line_prefix _ _ _ _ _ _ Hd Hk). cbn [bind].
  destruct (init_instruction _ _ _ _ _ _ Hd Hk) as (Hw & _ & _).
  destruct (init_Ok _ _ _ _ Hd) as (Hload & _ & _ & _).
  destruct (load_binary_file_unpack _ _ _ Hload) as (content & _ & Hws).
  rewrite Hws in Hw. apply unpack_le16_range in Hw.
  assert (Hall : all_from (256 * 256) 0%Z invalid_text_ok = true)
    by (vm_compute; reflexivity).
  pose proof (every_word _ Hall _ Hw) as Hb. clear Hall.
  unfold invalid_text_ok in Hb.
  apply String.eqb_eq in Hb. by rewrite Hb.
Qed.

Lemma invalid_opcode_line_witness :
  _format_instruction
    (Disassembler.mk [0x0006]%Z 0
       [Instruction.mk 0 0x0006 None None INVALID None] ∅ true)
    (Z.of_nat 0) (Instruction.mk 0 0x0006 None None INVALID None)
  = Ok ((label_header
           (Disassembler.mk [0x0006]%Z 0
              [Instruction.mk 0 0x0006 None None INVALID None] ∅ true)
           (Z.of_nat 0)
         ++ line_prefix (Z.of_nat 0)
              (Instruction.word
                 (Instruction.mk 0 0x0006 None None INVALID None)))
        ++ ("; (" ++ binary16
                       (Instruction.word
                          (Instruction.mk 0 0x0006 None None INVALID None))
            ++ ") Invalid opcode")
        ++ Py.nl).
Proof.
  apply (invalid_opcode_line (fun _ => Some [Byte.x06; Byte.x00]) "x" true).
  - vm_compute. reflexivity.
  - reflexivity.
  - reflexivity.
Defined.

Lemma address_word_decoded a w i :
  in_code_range a -> (0 <= w <= 0xFFFF)%Z -> _decode_word a w = Ok i ->
  Instruction.type i = ADDRESS ->
  Instruction.name i = Some (address_mnemonic w) /\
  Instruction.first i = Some (w mod 0x800)%Z.
Proof.
  intros Ha Hw Hdec Hty.
  assert (Hall : all_from (256 * 256) 0%Z address_word_ok = true)
    by (vm_compute; reflexivity).
  pose proof (every_word _ Hall w Hw) as H. clear Hall.
  unfold address_word_ok in H.
  destruct (first_match pattern_groups w) as [[f n]|] eqn:Hm.
  - destruct (decode_word_matched a w f n Ha Hm) as (_ & _ & Hd).
    rewrite Hd in Hdec. injection Hdec as <-. simpl in Hty. subst f.
    apply String.eqb_eq in H as ->. cbn [Instruction.name Instruction.first
      operands fst]. split; [done|]. f_equal.
    change 0x7FF%Z with (Z.ones 11). rewrite Z.land_ones by lia.
    reflexivity.
  - rewrite (decode_word_unmatched a w Ha Hm) in Hdec.
    injection Hdec as <-. done.
Qed.

(** X12.  A CALL or JMP line.  The mnemonic is CALL for the words
    0x2000..0x27FF and JMP for 0x2800..0x2FFF, and the target is the word
    modulo 0x800.  With labels disabled the operand is printed as "0",
    the target in four hexadecimal digits and "h", and no label lines
    precede the line; with labels enabled the operand is the label of
    the target, which is ['label%04X' % j] for some [j] below the number
    of labels. *)
Theorem address_line fs path labels d (k : nat) (i : Instruction.t) :
  Disassembler.init fs path labels = Ok d ->
  _instructions d !! k = Some i ->
  Instruction.type i = ADDRESS ->
  let w := Instruction.word i in
  let t := (w mod 0x800)%Z in
  (labels = false ->
   _format_instruction d (Z.of_nat k) i
   = Ok (line_prefix (Z.of_nat k) w
         ++ (address_mnemonic w ++ Py.tab ++ "0"
             ++ hex4 (t / 4096) (t / 256 mod 16) (t / 16 mod 16) (t mod 16)
             ++ "h")
         ++ Py.nl)) /\
  (labels = true ->
   exists j, (0 <= j < Z.of_nat (size (_labels d)))%Z /\
     _labels d !! Some t = Some (label_name j) /\
     _format_instruction d (Z.of_nat k) i
     = Ok ((label_header d (Z.of_nat k) ++ line_prefix (Z.of_nat k) w)
           ++ (address_mnemonic w ++ Py.tab ++ label_name j)
           ++ Py.nl)).
Proof.
  intros Hd Hk Hty w t.
  destruct (init_instruction _ _ _ _ _ _ Hd Hk) as (Hw & Ha & Hdec).
  destruct (init_Ok _ _ _ _ Hd) as (Hload & _ & Hhl & Hl).
  destruct (load_binary_file_unpack _ _ _ Hload) as (content & _ & Hws).
  rewrite Hws in Hw. apply unpack_le16_range in Hw.
  destruct (address_word_decoded _ _ _ Ha Hw Hdec Hty) as [Hn Hf].
  fold w in Hn, Hf. fold t in Hf.
  assert (Ht : (0 <= t < 0x10000)%Z) by (subst t; div_lia).
  unfold _format_instruction. rewrite Hty, Hn, Hf, Hhl.
  rewrite (init_line_prefix _ _ _ _ _ _ Hd Hk). fold w.
  split; intros ->.
  - rewrite Hl, lookup_empty. cbn [bind operand Py.fmt_s].
    by rewrite fmt_04X_digits by done.
  - destruct (labels_numbered (_instructions d))
      as (idx & c & Hidx & (Hlt & _ & _ & Hsize) & _).
    cbn [fst snd] in *.
    assert (Hkey : is_Some (_labels d !! Some t)).
    { rewrite Hl, <- (elem_of_dom (D := gset (option Z))).
      rewrite assign_labels_from_dom, elem_of_union, elem_of_list_to_set.
      right. apply elem_of_targets. exists i. split; [|done].
      apply list_elem_of_lookup. eauto. }
    destruct Hkey as [l Hlab]. pose proof Hlab as Hlab'.
    rewrite Hl, Hidx, lookup_fmap in Hlab'.
    destruct (idx !! Some t) as [j|] eqn:Hj; [|done].
    injection Hlab' as <-. exists j.
    split; [rewrite Hl, Hidx, map_size_fmap; specialize (Hlt _ _ Hj); lia|].
    split; [done|]. unfold label_header. by rewrite Hlab.
Qed.

Lemma address_line_witness :
  let w := Instruction.word (call0 1) in
  let t := (w mod 0x800)%Z in
  (true = false ->
   _format_instruction nop_call (Z.of_nat 1) (call0 1)
   = Ok (line_prefix (Z.of_nat 1) w
         ++ (address_mnemonic w ++ Py.tab ++ "0"
             ++ hex4 (t / 4096) (t / 256 mod 16) (t / 16 mod 16) (t mod 16)
             ++ "h")
         ++ Py.nl)) /\
  (true = true ->
   exists j, (0 <= j < Z.of_nat (size (_labels nop_call)))%Z /\
     _labels nop_call !! Some t = Some (label_name j) /\
     _format_instruction nop_call (Z.of_nat 1) (call0 1)
     = Ok ((label_header nop_call (Z.of_nat 1)
            ++ line_prefix (Z.of_nat 1) w)
           ++ (address_mnemonic w ++ Py.tab ++ label_name j)
           ++ Py.nl)).
Proof.
  apply (address_line nop_call_fs "rom.bin" true nop_call 1 (call0 1)).
  - vm_compute. reflexivity.
  - reflexivity.
  - reflexivity.
Defined.

(** ** Memory operands are printed unambiguously *)

Lemma rendering_lookup (location : Z) :
  (0 <= location <= 0xFF)%Z ->
  data_space_renderings !! Z.to_nat location = Some (rendering location).
Proof.
  intros H. unfold data_space_renderings.
  rewrite list_lookup_fmap, lookup_seqZ_lt by lia.
  simpl. do 2 f_equal. lia.
Qed.

(** X13.  [_lookup_memory_location] raises exactly for a negative
    location, and on the data space 0..0xFF it never gives two locations
    the same text: a register name or a bracketed address in the listing
    designates one memory location. *)
Theorem memory_renderings_distinct (l1 l2 : Z) :
  (returns (_lookup_memory_location l1) <-> (0 <= l1)%Z) /\
  ((0 <= l1 <= 0xFF)%Z -> (0 <= l2 <= 0xFF)%Z ->
   _lookup_memory_location l1 = _lookup_memory_location l2 -> l1 = l2).
Proof.
  split.
  - split; [|apply lookup_memory_location_returns].
    unfold _lookup_memory_location.
    destruct (Z.ltb_spec l1 0); [by intros [? ?]|done].
  - intros H1 H2 Heq.
    assert (Hnd : bool_decide (NoDup data_space_renderings) = true)
      by (vm_compute; reflexivity).
    apply bool_decide_eq_true_1 in Hnd.
    pose proof (rendering_lookup l1 H1) as R1.
    pose proof (rendering_lookup l2 H2) as R2.
    assert (Hr : rendering l1 = rendering l2)
      by (unfold rendering; by rewrite Heq).
    rewrite Hr in R1.
    pose proof (NoDup_lookup _ _ _ _ Hnd R1 R2). lia.
Qed.

Lemma memory_renderings_distinct_witness :
  0x13%Z = 0x13%Z.
Proof.
  apply (proj2 (memory_renderings_distinct 0x13 0x13)); [lia|lia|].
  reflexivity.
Defined.

(** ** Label lines *)




(** ** The operand helpers *)

(** X15.  On a 16-bit word [get_data_address] is the low seven bits of
    the word plus 0x80 when bit 14 is set, and [get_bit] is the three
    bits 9..7; so the data address ranges over 0..0xFF and the bit index
    over 0..7, and neither depends on any other bit of the word. *)
Theorem operand_helpers_read_fields (w : Z) :
  (0 <= w <= 0xFFFF)%Z ->
  Instruction.get_data_address w
  = (w mod 128 + 128 * (w / 16384 mod 2))%Z /\
  Instruction.get_bit w = (w / 128 mod 8)%Z.
Proof.
  intros Hw.
  assert (Hall : all_from (256 * 256) 0%Z operand_helpers_ok = true)
    by (vm_compute; reflexivity).
  pose proof (every_word _ Hall w Hw) as H. clear Hall.
  unfold operand_helpers_ok in H.
  apply andb_true_iff in H as [H1 H2].
  by apply Z.eqb_eq in H1, H2.
Qed.

Lemma operand_helpers_read_fields_witness :
  Instruction.get_data_address 0x74C5
  = (0x74C5 mod 128 + 128 * (0x74C5 / 16384 mod 2))%Z /\
  Instruction.get_bit 0x74C5 = (0x74C5 / 128 mod 8)%Z.
Proof. apply (operand_helpers_read_fields 0x74C5). lia. Defined.
